(** * Mock LLM scoring service: a verified model of [mock_llm_service.py]

    The program is a test fixture: an HTTP server whose POST handler
    answers every request with one JSON object [{"score": s, "label": l}],
    where [l] is the first command-line argument and [s] is looked up
    from it.

    Layout of this development:
    - Python values the program manipulates (strings as sequences of
      code points, floats as binary64, byte strings);
    - [json.dumps] on the dictionary the handler builds, and a JSON
      reader used to state what a client decodes;
    - the process: [__main__], [run], the server object and its
      attribute dictionary, in a small state-and-exception monad;
    - the command line: how the interpreter makes [sys.argv] of the
      bytes it is given;
    - the request handler [Handler.do_POST] and the dispatch of the
      base handler class;
    - the theorems. *)

From Stdlib Require Import ZArith NArith List Lia Bool.
From Stdlib Require Import Strings.Ascii Strings.String.
From Stdlib Require Import Floats DecimalString DecimalPos.
From stdpp Require Import base decidable option list gmap strings.

Local Open Scope Z_scope.

(** ** Python strings

    A Python [str] is a sequence of code points.  Literals of the source
    are ASCII; [py] reads a literal as a [str]. *)

Abbreviation pystr := (list N).

Definition py (s : string) : pystr :=
  map N_of_ascii (list_ascii_of_string s).

(** Byte strings ([bytes]) are Rocq strings: one [ascii] per byte. *)
Abbreviation bytes := string.

(** The double quote, written by its code (34). *)
Definition dquote : ascii := "034"%char.

(** [str.encode()] on text whose code points are all below 128 gives one
    byte per code point. *)
Definition ascii_text (b : bytes) : Prop :=
  Forall (fun c => (N_of_ascii c < 128)%N) (list_ascii_of_string b).

(** ** Python values stored in the program's dictionaries *)

Inductive pyval : Type :=
| VStr (s : pystr)
| VFloat (f : float).

(** A [dict] literal keeps its keys in insertion order, and that order is
    the one [json.dumps] writes: an association list. *)
Abbreviation pydict := (list (pystr * pyval)).

(** ** Python floats and the score lookup *)

Module Score.

(** Lines 17-24 of [run]: the chain of comparisons that picks the score. *)
Definition score_of_label (label : pystr) : float :=
  if decide (label = py "left") then (-1.0)%float
  else if decide (label = py "center") then 0.0%float
  else if decide (label = py "right") then 1.0%float
  else 0.0%float.

End Score.


(** ** [json.dumps]

    The standard encoder with its default settings ([ensure_ascii=True],
    separators [", "] and [": "]), on the values the handler passes it:
    a dictionary with string keys whose values are strings and floats. *)

Module Json.
Section Json.

(** The digits of a finite float that is not integral, or is too large
    for the rule below: the interpreter's shortest-digits search, taken
    as given. *)
Context (shortest_repr : float -> string).

Local Open Scope N_scope.

(** One lower-case hexadecimal digit, for [d < 16]. *)
Definition hex_digit (d : N) : ascii :=
  ascii_of_N (if d <? 10 then 48 + d else 87 + d).

(** ['\\u{0:04x}'.format(n)], which the encoder applies to [n < 0x10000]
    only: a backslash, [u] and four hexadecimal digits. *)
Definition u_escape (n : N) : string :=
  String "\" (String "u"
    (String (hex_digit (n / 4096 mod 16))
      (String (hex_digit (n / 256 mod 16))
        (String (hex_digit (n / 16 mod 16))
          (String (hex_digit (n mod 16)) EmptyString))))).

(** [replace] of [py_encode_basestring_ascii]: what one code point becomes.
    [ESCAPE_ASCII] leaves the printable ASCII characters other than the
    quote and the backslash alone; [ESCAPE_DCT] names seven escapes and
    holds [\u00XX] for the other control characters; the rest is written
    as [\uXXXX], as a surrogate pair from [0x10000] on. *)
Definition escape_char (c : N) : string :=
  if c =? 34 then String "\" (String dquote EmptyString)
  else if c =? 92 then "\\"
  else if c =? 8 then "\b"
  else if c =? 12 then "\f"
  else if c =? 10 then "\n"
  else if c =? 13 then "\r"
  else if c =? 9 then "\t"
  else if (32 <=? c) && (c <=? 126) then String (ascii_of_N c) EmptyString
  else if c <? 0x10000 then u_escape c
  else
    let n := c - 0x10000 in
    let s1 := N.lor 0xd800 (N.land (N.shiftr n 10) 0x3ff) in
    let s2 := N.lor 0xdc00 (N.land n 0x3ff) in
    u_escape s1 +:+ u_escape s2.

Fixpoint escape_chars (s : pystr) : string :=
  match s with
  | [] => EmptyString
  | c :: s' => escape_char c +:+ escape_chars s'
  end.

(** [py_encode_basestring_ascii]: the escaped text between two quotes. *)
Definition encode_basestring_ascii (s : pystr) : string :=
  String dquote (escape_chars s +:+ String dquote EmptyString).

(** [float.__repr__] prints the shortest decimal text that reads back as
    the same binary64 value.  For an integral value below [2^53] that is
    its integer digits followed by [.0].  The float is [m * 2^e], negated
    when [sign] is set. *)
Definition float_repr_finite (f : float) (sign : bool) (m : positive) (e : Z) : string :=
  let digits (v : N) :=
    (if sign then "-" else EmptyString) +:+
    NilZero.string_of_uint (N.to_uint v) +:+ ".0" in
  match e with
  | Z0 => if Npos m <? 2 ^ 53 then digits (Npos m) else shortest_repr f
  | Zpos _ => shortest_repr f
  | Zneg k =>
      if (Npos m mod 2 ^ Npos k =? 0) && (Npos m / 2 ^ Npos k <? 2 ^ 53)
      then digits (Npos m / 2 ^ Npos k) else shortest_repr f
  end.

(** [floatstr] of the encoder: the three special values have JSON-like
    names, every other float is printed by [float.__repr__]. *)
Definition floatstr (f : float) : string :=
  match Prim2SF f with
  | S754_nan => "NaN"
  | S754_infinity false => "Infinity"
  | S754_infinity true => "-Infinity"
  | S754_zero false => "0.0"
  | S754_zero true => "-0.0"
  | S754_finite sign m e => float_repr_finite f sign m e
  end.

Definition dumps_value (v : pyval) : string :=
  match v with
  | VStr s => encode_basestring_ascii s
  | VFloat f => floatstr f
  end.

(** The items of a dictionary, separated by [", "], each as
    [key ": " value]. *)
Fixpoint dumps_items (first : bool) (d : pydict) : string :=
  match d with
  | [] => EmptyString
  | (k, v) :: d' =>
      (if first then EmptyString else ", ") +:+
      encode_basestring_ascii k +:+ ": " +:+ dumps_value v +:+
      dumps_items false d'
  end.

(** [json.dumps(d)] for a dictionary [d]. *)
Definition dumps (d : pydict) : string :=
  "{" +:+ dumps_items true d +:+ "}".

End Json.
End Json.


(** ** Reading JSON

    What a client obtains from a response body.  The grammar is the one
    of RFC 8259; string escapes are decoded as the standard library's
    [py_scanstring] does: a [\uXXXX] escape in [D800..DBFF] directly
    followed by one in [DC00..DFFF] is one code point, any other escape
    stands for itself.  The reader takes ASCII texts, which is all that
    [json.dumps] writes; a byte above 127 is refused. *)

Module JsonRead.

Local Open Scope N_scope.

#[local] Unset Elimination Schemes.
Inductive json : Type :=
| JNull
| JBool (b : bool)
| JNumber (literal : string)
| JString (s : pystr)
| JArray (items : list json)
| JObject (members : list (pystr * json)).
#[local] Set Elimination Schemes.

Definition hex_value (a : ascii) : option N :=
  let n := N_of_ascii a in
  if (48 <=? n) && (n <=? 57) then Some (n - 48)
  else if (97 <=? n) && (n <=? 102) then Some (n - 87)
  else if (65 <=? n) && (n <=? 70) then Some (n - 55)
  else None.

Definition hex4 (a b c d : ascii) : option N :=
  match hex_value a, hex_value b, hex_value c, hex_value d with
  | Some x, Some y, Some z, Some w => Some (x * 4096 + y * 256 + z * 16 + w)
  | _, _, _, _ => None
  end.

(** The [BACKSLASH] table: the character after a backslash, other than
    [u], and what it stands for. *)
Definition unescape (e : ascii) : option N :=
  let n := N_of_ascii e in
  if n =? 34 then Some 34
  else if n =? 92 then Some 92
  else if n =? 47 then Some 47
  else if n =? 98 then Some 8
  else if n =? 102 then Some 12
  else if n =? 110 then Some 10
  else if n =? 114 then Some 13
  else if n =? 116 then Some 9
  else None.

Definition is_high_surrogate (u : N) : bool := (0xd800 <=? u) && (u <=? 0xdbff).
Definition is_low_surrogate (u : N) : bool := (0xdc00 <=? u) && (u <=? 0xdfff).

Definition join_surrogates (hi lo : N) : N :=
  0x10000 + N.lor (N.shiftl (hi - 0xd800) 10) (lo - 0xdc00).

Definition push (c : N) (r : option (pystr * string)) : option (pystr * string) :=
  match r with
  | Some (l, rest) => Some (c :: l, rest)
  | None => None
  end.

(** [scanstring s] reads a string whose opening quote has been consumed:
    the decoded text and what follows the closing quote. *)
Fixpoint scanstring (s : string) : option (pystr * string) :=
  match s with
  | EmptyString => None
  | String c s1 =>
      let n := N_of_ascii c in
      if n =? 34 then Some ([], s1)
      else if n =? 92 then
        match s1 with
        | EmptyString => None
        | String e s2 =>
            if N_of_ascii e =? 117 then
              match s2 with
              | String h1 (String h2 (String h3 (String h4 s3))) =>
                  match hex4 h1 h2 h3 h4 with
                  | None => None
                  | Some uni =>
                      match s3 with
                      | String b (String u s4) =>
                          if is_high_surrogate uni && (N_of_ascii b =? 92)
                             && (N_of_ascii u =? 117)
                          then
                            match s4 with
                            | String g1 (String g2 (String g3 (String g4 s5))) =>
                                match hex4 g1 g2 g3 g4 with
                                | None => None
                                | Some uni2 =>
                                    if is_low_surrogate uni2
                                    then push (join_surrogates uni uni2) (scanstring s5)
                                    else push uni (scanstring s3)
                                end
                            | _ => None
                            end
                          else push uni (scanstring s3)
                      | _ => push uni (scanstring s3)
                      end
                  end
              | _ => None
              end
            else
              match unescape e with
              | Some ch => push ch (scanstring s2)
              | None => None
              end
        end
      else if n <? 32 then None
      else if 128 <=? n then None
      else push n (scanstring s1)
  end.

Definition is_ws (a : ascii) : bool :=
  let n := N_of_ascii a in (n =? 32) || (n =? 9) || (n =? 10) || (n =? 13).

Fixpoint skip_ws (s : string) : string :=
  match s with
  | String a s' => if is_ws a then skip_ws s' else s
  | EmptyString => EmptyString
  end.

Definition is_digit (a : ascii) : bool :=
  let n := N_of_ascii a in (48 <=? n) && (n <=? 57).

(** The longest run of digits at the front of [s], and the rest. *)
Fixpoint span_digits (s : string) : string * string :=
  match s with
  | String a s' =>
      if is_digit a then let (ds, r) := span_digits s' in (String a ds, r)
      else (EmptyString, s)
  | EmptyString => (EmptyString, EmptyString)
  end.

(** A number of RFC 8259: an optional minus sign; an integer part that is
    a single zero or starts with a non-zero digit; an optional fraction
    (a dot and at least one digit); an optional exponent (e or E, an
    optional sign, at least one digit).  Longest match; the literal is
    kept as written. *)
Definition scan_number (s : string) : option (string * string) :=
  let (sign, s1) :=
    match s with
    | String a s' => if (a =? "-")%char then ("-"%string, s') else (EmptyString, s)
    | EmptyString => (EmptyString, s)
    end in
  let int_part :=
    match s1 with
    | String a s' =>
        if (a =? "0")%char then Some ("0"%string, s')
        else if is_digit a then Some (span_digits s1)
        else None
    | EmptyString => None
    end in
  match int_part with
  | None => None
  | Some (int, s2) =>
      let (frac, s3) :=
        match s2 with
        | String a s' =>
            if (a =? ".")%char then
              match span_digits s' with
              | (EmptyString, _) => (EmptyString, s2)
              | (ds, r) => (String a ds, r)
              end
            else (EmptyString, s2)
        | EmptyString => (EmptyString, s2)
        end in
      let (exp, s4) :=
        match s3 with
        | String a s' =>
            if (a =? "e")%char || (a =? "E")%char then
              let (esign, s'') :=
                match s' with
                | String b t =>
                    if (b =? "+")%char || (b =? "-")%char
                    then (String b EmptyString, t) else (EmptyString, s')
                | EmptyString => (EmptyString, s')
                end in
              match span_digits s'' with
              | (EmptyString, _) => (EmptyString, s3)
              | (ds, r) => (String a (esign +:+ ds), r)
              end
            else (EmptyString, s3)
        | EmptyString => (EmptyString, s3)
        end in
      Some (sign +:+ int +:+ frac +:+ exp, s4)
  end.

(** [expect w s]: [s] without its prefix [w], when it has it. *)
Fixpoint expect (w s : string) : option string :=
  match w, s with
  | EmptyString, _ => Some s
  | String a w', String b s' => if (a =? b)%char then expect w' s' else None
  | String _ _, EmptyString => None
  end.

(** Recursive descent.  [fuel] bounds the nesting depth plus the number
    of items read; [loads] gives one more than the length of the text. *)
Fixpoint parse_value (fuel : nat) (s : string) : option (json * string) :=
  match fuel with
  | O => None
  | S fuel' =>
      match s with
      | EmptyString => None
      | String a s1 =>
          if (a =? "{")%char then
            match skip_ws s1 with
            | String b s2 =>
                if (b =? "}")%char then Some (JObject [], s2)
                else
                  match parse_members fuel' (String b s2) with
                  | Some (ms, r) => Some (JObject ms, r)
                  | None => None
                  end
            | EmptyString => None
            end
          else if (a =? "[")%char then
            match skip_ws s1 with
            | String b s2 =>
                if (b =? "]")%char then Some (JArray [], s2)
                else
                  match parse_items fuel' (String b s2) with
                  | Some (vs, r) => Some (JArray vs, r)
                  | None => None
                  end
            | EmptyString => None
            end
          else if (a =? dquote)%char then
            match scanstring s1 with
            | Some (t, r) => Some (JString t, r)
            | None => None
            end
          else if (a =? "t")%char then
            match expect "rue" s1 with Some r => Some (JBool true, r) | None => None end
          else if (a =? "f")%char then
            match expect "alse" s1 with Some r => Some (JBool false, r) | None => None end
          else if (a =? "n")%char then
            match expect "ull" s1 with Some r => Some (JNull, r) | None => None end
          else
            match scan_number s with
            | Some (lit, r) => Some (JNumber lit, r)
            | None => None
            end
      end
  end

with parse_members (fuel : nat) (s : string) : option (list (pystr * json) * string) :=
  match fuel with
  | O => None
  | S fuel' =>
      match s with
      | String q s1 =>
          if (q =? dquote)%char then
            match scanstring s1 with
            | Some (k, s2) =>
                match skip_ws s2 with
                | String colon s3 =>
                    if (colon =? ":")%char then
                      match parse_value fuel' (skip_ws s3) with
                      | Some (v, s4) =>
                          match skip_ws s4 with
                          | String d s5 =>
                              if (d =? ",")%char then
                                match parse_members fuel' (skip_ws s5) with
                                | Some (ms, r) => Some ((k, v) :: ms, r)
                                | None => None
                                end
                              else if (d =? "}")%char then Some ([(k, v)], s5)
                              else None
                          | EmptyString => None
                          end
                      | None => None
                      end
                    else None
                | EmptyString => None
                end
            | None => None
            end
          else None
      | EmptyString => None
      end
  end

with parse_items (fuel : nat) (s : string) : option (list json * string) :=
  match fuel with
  | O => None
  | S fuel' =>
      match parse_value fuel' s with
      | Some (v, s1) =>
          match skip_ws s1 with
          | String d s2 =>
              if (d =? ",")%char then
                match parse_items fuel' (skip_ws s2) with
                | Some (vs, r) => Some (v :: vs, r)
                | None => None
                end
              else if (d =? "]")%char then Some ([v], s2)
              else None
          | EmptyString => None
          end
      | None => None
      end
  end.

(** [loads]: one JSON value with optional white space around it. *)
Definition loads (s : bytes) : option json :=
  match parse_value (S (String.length s)) (skip_ws s) with
  | Some (v, rest) =>
      match skip_ws rest with
      | EmptyString => Some v
      | String _ _ => None
      end
  | None => None
  end.

End JsonRead.


(** ** Exceptions, results and the monad of the program's statements *)

Module Py.

Inductive exn : Type :=
| SystemExit (code : Z)
| ValueError
| IndexError
| OverflowError
| OSError (errno : Z)
| AttributeError (name : string)
| UnicodeEncodeError.

(** A statement returns, raises, or never comes back ([serve_forever]). *)
Inductive result (A : Type) : Type :=
| Return (a : A)
| Raise (e : exn)
| Forever.

Arguments Return {A} a.
Arguments Raise {A} e.
Arguments Forever {A}.

(** Statements thread a state of type [S]. *)
Definition M (S A : Type) : Type := S -> result A * S.

Definition ret {S A} (a : A) : M S A := fun st => (Return a, st).

Definition bind {S A B} (m : M S A) (k : A -> M S B) : M S B :=
  fun st =>
    match m st with
    | (Return a, st') => k a st'
    | (Raise e, st') => (Raise e, st')
    | (Forever, st') => (Forever, st')
    end.

Definition raise {S A} (e : exn) : M S A := fun st => (Raise e, st).

Definition modify {S} (f : S -> S) : M S unit := fun st => (Return tt, f st).

End Py.

Notation "'let*' x ':=' m 'in' k" := (Py.bind m (fun x => k))
  (at level 10, x name, m at level 100, k at level 200).
Notation "m '>>' k" := (Py.bind m (fun _ => k))
  (at level 65, right associativity).

(** ** What the program is given by its surroundings

    The tables of the Unicode database that [int] consults for code
    points above 127, the interpreter's limit on the digits of an integer
    literal ([0] for none), the operating system's answer when a socket
    is created, bound to a port and made to listen ([None] for success,
    else the error number), the digits [float.__repr__] finds for a float
    that is not a small integer, and the texts that the HTTP library
    fills in: its version string, [repr] of a string, and the HTML page
    of an error (from its code, message and explanation).

    Two more: which code points above 127 the standard output takes,
    given its encoding and error handler (UTF-8 with [strict] takes all
    but [D800..DFFF]; ASCII takes none), and the port the kernel picks
    for a socket that is bound to port 0. *)

Record Env : Type := {
  unicode_isspace : N -> bool;
  unicode_decimal : N -> option N;
  max_str_digits : N;
  os_bind : Z -> option Z;
  float_shortest_repr : float -> string;
  version_string : string;
  str_repr : string -> string;
  error_document : Z -> string -> string -> bytes;
  stdout_encodes : N -> bool;
  ephemeral_port : Z
}.

(** ** [int(s)] on a string, base 10 *)

Module Int.
Section Int.

Context (env : Env).

Local Open Scope N_scope.

(** [_PyUnicode_TransformDecimalAndSpaceToASCII]: ASCII stays, a Unicode
    space becomes a blank, a Unicode decimal digit its ASCII digit, and
    anything else a question mark. *)
Definition to_ascii (c : N) : N :=
  if c <? 128 then c
  else if unicode_isspace env c then 32
  else match unicode_decimal env c with
       | Some d => if d <? 10 then 48 + d else 63
       | None => 63
       end.

(** [Py_ISSPACE]: blank, tab, line feed, vertical tab, form feed,
    carriage return. *)
Definition is_space (c : N) : bool := (c =? 32) || ((9 <=? c) && (c <=? 13)).

Definition is_digit (c : N) : bool := (48 <=? c) && (c <=? 57).

Fixpoint skip_spaces (l : list N) : list N :=
  match l with
  | c :: l' => if is_space c then skip_spaces l' else l
  | [] => []
  end.

(** The digit loop of [PyLong_FromString]: digits, with single
    underscores between them.  Returns the value read, the number of
    digits, and what follows; [None] on a doubled or trailing
    underscore. *)
Fixpoint scan_digits (l : list N) (acc digits : N) (prev_underscore : bool)
  : option (N * N * list N) :=
  match l with
  | c :: l' =>
      if is_digit c then scan_digits l' (10 * acc + (c - 48)) (digits + 1) false
      else if c =? 95 then
        if prev_underscore then None else scan_digits l' acc digits true
      else if prev_underscore then None else Some (acc, digits, l)
  | [] => if prev_underscore then None else Some (acc, digits, [])
  end.

(** After the sign: digits that do not start with an underscore and are
    not more than the limit allows, then blanks, and nothing else. *)
Definition parse_digits (negative : bool) (l : list N) : option Z :=
  if match l with c :: _ => c =? 95 | [] => false end then None
  else
    match scan_digits l 0 0 false with
    | Some (v, digits, rest) =>
        if digits =? 0 then None
        else if (0 <? max_str_digits env) && (max_str_digits env <? digits) then None
        else
          match skip_spaces rest with
          | [] => Some (if negative then (- Z.of_N v)%Z else Z.of_N v)
          | _ :: _ => None
          end
    | None => None
    end.

(** [int(s)]: [None] stands for [ValueError].  Leading blanks, one
    optional sign, and the digits. *)
Definition int_of_str (s : pystr) : option Z :=
  let l := skip_spaces (map to_ascii s) in
  match l with
  | c :: l' =>
      if c =? 43 then parse_digits false l'
      else if c =? 45 then parse_digits true l'
      else parse_digits false l
  | [] => parse_digits false l
  end.

(** The characters an accepted text is made of, once brought to ASCII:
    digits, the underscore, blanks and the two signs. *)
Definition literal_char (c : N) : bool :=
  is_digit c || (c =? 95) || is_space c || (c =? 43) || (c =? 45).

End Int.
End Int.

(** [str(n)] for an integer. *)
Definition str_of_int (n : Z) : pystr :=
  py (NilZero.string_of_int (Z.to_int n)).

(** ** The process *)

Module Process.

(** Objects are attribute dictionaries in a store; a reference is a key
    of the store, so that the server object that [run] fills in is the one
    a handler reads through [self.server]. *)
Abbreviation obj := (gmap string pyval).

Record process : Type := {
  stdout : list pystr;          (* what [print] wrote, one entry per call *)
  listening : list Z;           (* ports on which a socket listens *)
  heap : gmap nat obj;          (* the objects *)
  next_ref : nat;               (* the next free reference *)
  assigned : list (nat * string); (* attribute assignments made, oldest first *)
  serving : option nat          (* the server inside [serve_forever] *)
}.

Definition initial : process :=
  {| stdout := []; listening := []; heap := ∅; next_ref := 0%nat;
     assigned := []; serving := None |}.

(** The line that [run] prints, line 29. *)
Definition banner (label : pystr) (port : Z) : pystr :=
  py "Starting mock LLM service for " ++ label ++ py " on port "
  ++ str_of_int port ++ py "...".

Section Process.

Context (env : Env).

(** Whether the standard output takes a text.  Its encoding is taken to
    be one that has the ASCII characters; for every other code point the
    answer is that of the encoding and its error handler. *)
Definition stdout_takes (text : pystr) : bool :=
  forallb (fun c => (c <? 128)%N || stdout_encodes env c) text.

(** [print(text)]: the text is encoded as a whole before any of it is
    written, so a code point that the standard output cannot encode
    raises [UnicodeEncodeError] and nothing is written. *)
Definition print (text : pystr) : Py.M process unit :=
  fun p =>
    if stdout_takes text
    then (Py.Return tt,
          {| stdout := stdout p ++ [text]; listening := listening p; heap := heap p;
             next_ref := next_ref p; assigned := assigned p; serving := serving p |})
    else (Py.Raise Py.UnicodeEncodeError, p).

(** [sys.exit(code)] raises [SystemExit]. *)
Definition sys_exit {A} (code : Z) : Py.M process A := Py.raise (Py.SystemExit code).

(** [l[i]] *)
Definition index {S} (l : list pystr) (i : nat) : Py.M S pystr :=
  match l !! i with
  | Some x => Py.ret x
  | None => Py.raise Py.IndexError
  end.

Definition int (s : pystr) : Py.M process Z :=
  match Int.int_of_str env s with
  | Some n => Py.ret n
  | None => Py.raise Py.ValueError
  end.

(** [socket.bind(('', port))] and [listen]: a port outside [0..65535] is
    an [OverflowError], before the operating system is asked; the
    operating system's refusal is an [OSError]. *)
Definition bind_failure (port : Z) : option Py.exn :=
  if (port <? 0) || (65535 <? port) then Some Py.OverflowError
  else
    match os_bind env port with
    | Some errno => Some (Py.OSError errno)
    | None => None
    end.

(** The port on which a socket bound to [port] listens: for port 0 the
    kernel picks one. *)
Definition listening_port (port : Z) : Z :=
  if port =? 0 then ephemeral_port env else port.

(** [HTTPServer(('', port), Handler)]: the constructor creates the socket,
    binds it and listens; whatever fails there is raised again after the
    socket is closed.  Otherwise there is a new server object. *)
Definition HTTPServer (port : Z) : Py.M process nat :=
  match bind_failure port with
  | Some e => Py.raise e
  | None =>
      fun p =>
        (Py.Return (next_ref p),
         {| stdout := stdout p; listening := listening p ++ [listening_port port];
            heap := <[next_ref p := ∅]> (heap p);
            next_ref := S (next_ref p); assigned := assigned p;
            serving := serving p |})
  end.

(** [o.name = v] *)
Definition setattr (o : nat) (name : string) (v : pyval) : Py.M process unit :=
  Py.modify (fun p =>
    {| stdout := stdout p; listening := listening p;
       heap := <[o := <[name := v]> (default ∅ (heap p !! o))]> (heap p);
       next_ref := next_ref p; assigned := assigned p ++ [(o, name)];
       serving := serving p |}).

(** [o.name] *)
Definition getattr (o : nat) (name : string) : Py.M process pyval :=
  fun p =>
    match heap p !! o with
    | Some attrs =>
        match attrs !! name with
        | Some v => (Py.Return v, p)
        | None => (Py.Raise (Py.AttributeError name), p)
        end
    | None => (Py.Raise (Py.AttributeError name), p)
    end.

(** [server.serve_forever()] does not return. *)
Definition serve_forever (server : nat) : Py.M process unit :=
  fun p =>
    (Py.Forever,
     {| stdout := stdout p; listening := listening p; heap := heap p;
        next_ref := next_ref p; assigned := assigned p;
        serving := Some server |}).

(** [run(label, port)], lines 16-30. *)
Definition run (label : pystr) (port : Z) : Py.M process unit :=
  let score := Score.score_of_label label in
  let* server := HTTPServer port in
  setattr server "label" (VStr label) >>
  setattr server "score" (VFloat score) >>
  print (banner label port) >>
  serve_forever server.

(** The process once [run label port] has made the server and assigned
    both attributes, line 28: the socket listening, one server object
    holding the label and its score, nothing printed yet. *)
Definition bound (label : pystr) (port : Z) : process :=
  {| stdout := [];
     listening := [listening_port port];
     heap := <[0%nat := <["score" := VFloat (Score.score_of_label label)]>
                          (<["label" := VStr label]> ∅)]> ∅;
     next_ref := 1%nat;
     assigned := [(0%nat, "label"); (0%nat, "score")];
     serving := None |}.

(** The process once [run label port] is inside [serve_forever]: the
    line printed besides. *)
Definition started (label : pystr) (port : Z) : process :=
  {| stdout := [banner label port];
     listening := [listening_port port];
     heap := <[0%nat := <["score" := VFloat (Score.score_of_label label)]>
                          (<["label" := VStr label]> ∅)]> ∅;
     next_ref := 1%nat;
     assigned := [(0%nat, "label"); (0%nat, "score")];
     serving := Some 0%nat |}.

Definition usage : pystr := py "Usage: python mock_llm_service.py <label> <port>".

(** The body of [if __name__ == "__main__":], lines 32-38, on [sys.argv]. *)
Definition main (argv : list pystr) : Py.M process unit :=
  (if negb (length argv =? 3)%nat
   then print usage >> sys_exit 1
   else Py.ret tt) >>
  let* label := index argv 1 in
  let* port_text := index argv 2 in
  let* port := int port_text in
  run label port.

(** How the interpreter ends: [SystemExit] gives its code, any other
    exception a traceback and status 1, a normal end status 0. *)
Inductive outcome : Type :=
| Exited (status : Z) (traceback : option Py.exn)
| Serving.

Definition outcome_of (r : Py.result unit) : outcome :=
  match r with
  | Py.Return _ => Exited 0 None
  | Py.Raise (Py.SystemExit code) => Exited code None
  | Py.Raise e => Exited 1 (Some e)
  | Py.Forever => Serving
  end.

(** Running the program on [sys.argv]: how it ends, and the process as
    it is when the program ends or enters [serve_forever].  What the
    interpreter does on its way out (closing the socket) comes after. *)
Definition python (argv : list pystr) : outcome * process :=
  let (r, p) := main argv initial in (outcome_of r, p).

End Process.
End Process.


(** ** The HTTP handler

    A handler method answers by calling the base class: [send_response],
    [send_header], [end_headers], and [wfile.write] for the body.  The
    model keeps these calls, in order, as what the handler returns; the
    status, the headers and the body of the response are read from them
    ([response_of]).  How the library turns the calls into the bytes of
    the connection is [transmit], further down. *)

Module Http.

(** What a handler asks of [BaseHTTPRequestHandler]. *)
Inductive call : Type :=
| SendResponse (code : Z) (message : option string)
| SendHeader (keyword value : string)
| EndHeaders
| Write (data : bytes).

(** A request as [parse_request] leaves it on the handler object. *)
Record request : Type := {
  command : string;
  path : string;
  request_version : string;
  headers : list (string * string);
  rfile : bytes
}.

(** [self]: the request and the server it came to. *)
Record handler : Type := {
  server : nat;
  req : request
}.

(** While a request is handled: the process, and the calls made. *)
Record hstate : Type := {
  proc : Process.process;
  sent : list call
}.

Definition emit (c : call) : Py.M hstate unit :=
  Py.modify (fun h => {| proc := proc h; sent := sent h ++ [c] |}).

(** A statement on the process, run while a request is handled. *)
Definition lift {A} (m : Py.M Process.process A) : Py.M hstate A :=
  fun h => let (r, p) := m (proc h) in (r, {| proc := p; sent := sent h |}).

Definition send_response (code : Z) : Py.M hstate unit :=
  emit (SendResponse code None).
Definition send_header (keyword value : string) : Py.M hstate unit :=
  emit (SendHeader keyword value).
Definition end_headers : Py.M hstate unit := emit EndHeaders.
Definition wfile_write (data : bytes) : Py.M hstate unit := emit (Write data).

(** The entries of [responses] for the codes that occur here: the short
    and the long message. *)
Definition responses (code : Z) : option (string * string) :=
  if code =? 200 then Some ("OK", "Request fulfilled, document follows")
  else if code =? 501
       then Some ("Not Implemented", "Server does not support this operation")
  else None.

Section Handler.

Context (env : Env).

(** [Handler.do_POST], lines 6-14.  The text of [json.dumps] has ASCII
    characters only, so [.encode()] gives it byte for byte. *)
Definition do_POST (self : handler) : Py.M hstate unit :=
  let* score := lift (Process.getattr (server self) "score") in
  let* label := lift (Process.getattr (server self) "label") in
  let response := [(py "score", score); (py "label", label)] in
  send_response 200 >>
  send_header "Content-type" "application/json" >>
  end_headers >>
  wfile_write (Json.dumps (float_shortest_repr env) response).

(** The class [Handler]: the [do_*] methods it defines. *)
Definition Handler : list (string * (handler -> Py.M hstate unit)) :=
  [("do_POST", do_POST)].

Fixpoint find_method (name : string)
    (methods : list (string * (handler -> Py.M hstate unit)))
  : option (handler -> Py.M hstate unit) :=
  match methods with
  | [] => None
  | (n, m) :: rest => if String.eqb n name then Some m else find_method name rest
  end.

Definition string_of_nat (n : nat) : string :=
  NilZero.string_of_uint (Nat.to_uint n).

(** [send_error(code, message)] of the base class. *)
Definition send_error (self : handler) (code : Z) (message : option string)
  : Py.M hstate unit :=
  let (shortmsg, longmsg) := default ("???", "???") (responses code) in
  let message := default shortmsg message in
  let explain := longmsg in
  emit (SendResponse code (Some message)) >>
  send_header "Connection" "close" >>
  if (200 <=? code) && negb ((code =? 204) || (code =? 205) || (code =? 304))
  then
    let body := error_document env code message explain in
    send_header "Content-Type" "text/html;charset=utf-8" >>
    send_header "Content-Length" (string_of_nat (String.length body)) >>
    end_headers >>
    if negb (String.eqb (command (req self)) "HEAD")
       && negb (String.eqb body EmptyString)
    then wfile_write body
    else Py.ret tt
  else end_headers.

(** The dispatch of [handle_one_request], once the request is parsed:
    the method [do_] + command when the class has it, else error 501. *)
Definition handle_one_request (self : handler) : Py.M hstate unit :=
  let mname := "do_" +:+ command (req self) in
  match find_method mname Handler with
  | None =>
      send_error self 501
        (Some ("Unsupported method (" +:+ str_repr env (command (req self)) +:+ ")"))
  | Some method => method self
  end.

(** One request to a serving process: what the handler did, the calls it
    made, and the process afterwards. *)
Definition handle (p : Process.process) (r : request)
  : option (Py.result unit * list call * Process.process) :=
  match Process.serving p with
  | Some srv =>
      let (res, h) :=
        handle_one_request {| server := srv; req := r |} {| proc := p; sent := [] |} in
      Some (res, sent h, proc h)
  | None => None
  end.

(** Requests one after the other: the calls made for each, and the
    process at the end.  An exception in a handler ends that request
    only. *)
Fixpoint serve (p : Process.process) (rs : list request)
  : list (list call) * Process.process :=
  match rs with
  | [] => ([], p)
  | r :: rs' =>
      match handle p r with
      | Some (_, calls, p') =>
          let (out, p'') := serve p' rs' in (calls :: out, p'')
      | None => ([], p)
      end
  end.

(** The calls that [do_POST] makes when the server has a score and a
    label. *)
Definition post_calls (score label : pyval) : list call :=
  [SendResponse 200 None;
   SendHeader "Content-type" "application/json";
   EndHeaders;
   Write (Json.dumps (float_shortest_repr env) [(py "score", score); (py "label", label)])].

(** The calls that [send_error] makes for an unsupported method. *)
Definition error_calls (r : request) : list call :=
  let message := "Unsupported method (" +:+ str_repr env (command r) +:+ ")" in
  let document :=
    error_document env 501 message "Server does not support this operation" in
  [SendResponse 501 (Some message);
   SendHeader "Connection" "close";
   SendHeader "Content-Type" "text/html;charset=utf-8";
   SendHeader "Content-Length" (string_of_nat (String.length document));
   EndHeaders]
  ++ (if negb (String.eqb (command r) "HEAD") && negb (String.eqb document EmptyString)
      then [Write document] else []).

End Handler.

(** *** The response a handler returns

    The calls of one response, read as a status, headers and a body:
    [send_response], then headers, then [end_headers], then the body. *)

Record response : Type := {
  status : Z;
  reason : option string;
  fields : list (string * string);
  body : bytes
}.

Fixpoint read_body (calls : list call) : option bytes :=
  match calls with
  | [] => Some EmptyString
  | Write data :: rest =>
      match read_body rest with
      | Some b => Some (data +:+ b)
      | None => None
      end
  | _ :: _ => None
  end.

Fixpoint read_fields (calls : list call) : option (list (string * string) * bytes) :=
  match calls with
  | SendHeader k v :: rest =>
      match read_fields rest with
      | Some (fs, b) => Some ((k, v) :: fs, b)
      | None => None
      end
  | EndHeaders :: rest =>
      match read_body rest with
      | Some b => Some ([], b)
      | None => None
      end
  | _ => None
  end.

Definition response_of (calls : list call) : option response :=
  match calls with
  | SendResponse code message :: rest =>
      match read_fields rest with
      | Some (fs, b) =>
          Some {| status := code; reason := message; fields := fs; body := b |}
      | None => None
      end
  | _ => None
  end.

(** Header names compare without regard to case. *)
Definition lower (a : ascii) : ascii :=
  let n := N_of_ascii a in
  if ((65 <=? n) && (n <=? 90))%N then ascii_of_N (n + 32) else a.

Fixpoint lowercase (s : string) : string :=
  match s with
  | EmptyString => EmptyString
  | String a s' => String (lower a) (lowercase s')
  end.

Fixpoint get_header (name : string) (fs : list (string * string)) : option string :=
  match fs with
  | [] => None
  | (k, v) :: fs' =>
      if String.eqb (lowercase k) (lowercase name) then Some v
      else get_header name fs'
  end.

(** *** What the library puts on the connection

    [send_response_only], [send_header] and [end_headers] fill and flush
    the headers buffer unless the request line named [HTTP/0.9], for
    which the body goes out alone. [send_response] adds the [Server] and
    [Date] headers. *)

Definition crlf : string := String "013"%char (String "010"%char EmptyString).

Definition string_of_Z (n : Z) : string := NilZero.string_of_int (Z.to_int n).

Definition status_line (code : Z) (message : option string) : bytes :=
  let text :=
    match message with
    | Some m => m
    | None =>
        match responses code with Some (short, _) => short | None => EmptyString end
    end in
  "HTTP/1.0 " +:+ string_of_Z code +:+ " " +:+ text +:+ crlf.

Definition header_line (keyword value : string) : bytes :=
  keyword +:+ ": " +:+ value +:+ crlf.

Fixpoint transmit (env : Env) (version date : string)
    (buffer : bytes) (calls : list call) : bytes :=
  let modern := negb (String.eqb version "HTTP/0.9") in
  match calls with
  | [] => EmptyString
  | SendResponse code message :: rest =>
      transmit env version date
        (if modern
         then buffer +:+ status_line code message
              +:+ header_line "Server" (version_string env)
              +:+ header_line "Date" date
         else buffer) rest
  | SendHeader k v :: rest =>
      transmit env version date
        (if modern then buffer +:+ header_line k v else buffer) rest
  | EndHeaders :: rest =>
      if modern
      then buffer +:+ crlf +:+ transmit env version date EmptyString rest
      else transmit env version date buffer rest
  | Write data :: rest => data +:+ transmit env version date buffer rest
  end.

End Http.


(** ** The command line

    On a POSIX system the arguments of a command are byte strings.  The
    interpreter makes [sys.argv] of them with the filesystem encoding,
    UTF-8, and the error handler [surrogateescape]: a well-formed UTF-8
    sequence is the code point it encodes, and a byte that does not
    begin one stands alone as the code point [DC00 + byte].  Sequences
    that are too long for their code point, that encode [D800..DFFF] or
    that go beyond [10FFFF] are not well formed. *)

Module Argv.

Local Open Scope N_scope.

(** A continuation byte, [80..BF]. *)
Definition continuation (b : N) : bool := (0x80 <=? b) && (b <=? 0xbf).

Fixpoint fsdecode (s : bytes) : pystr :=
  match s with
  | EmptyString => []
  | String a s1 =>
      let b := N_of_ascii a in
      let escaped := (0xdc00 + b) :: fsdecode s1 in
      if b <? 0x80 then b :: fsdecode s1
      else if b <? 0xc2 then escaped
      else if b <? 0xe0 then
        match s1 with
        | String a1 s2 =>
            let c1 := N_of_ascii a1 in
            if continuation c1
            then ((b - 0xc0) * 64 + (c1 - 0x80)) :: fsdecode s2
            else escaped
        | EmptyString => escaped
        end
      else if b <? 0xf0 then
        match s1 with
        | String a1 (String a2 s3) =>
            let c1 := N_of_ascii a1 in
            let c2 := N_of_ascii a2 in
            if continuation c1 && continuation c2
               && negb ((b =? 0xe0) && (c1 <? 0xa0))
               && negb ((b =? 0xed) && (0xa0 <=? c1))
            then ((b - 0xe0) * 4096 + (c1 - 0x80) * 64 + (c2 - 0x80)) :: fsdecode s3
            else escaped
        | _ => escaped
        end
      else if b <? 0xf5 then
        match s1 with
        | String a1 (String a2 (String a3 s4)) =>
            let c1 := N_of_ascii a1 in
            let c2 := N_of_ascii a2 in
            let c3 := N_of_ascii a3 in
            if continuation c1 && continuation c2 && continuation c3
               && negb ((b =? 0xf0) && (c1 <? 0x90))
               && negb ((b =? 0xf4) && (0x90 <=? c1))
            then ((b - 0xf0) * 262144 + (c1 - 0x80) * 4096
                  + (c2 - 0x80) * 64 + (c3 - 0x80)) :: fsdecode s4
            else escaped
        | _ => escaped
        end
      else escaped
  end.

(** The bytes of a command-line argument, from their codes. *)
Definition arg (codes : list N) : bytes :=
  string_of_list_ascii (map ascii_of_N codes).

End Argv.


(** ** Notions used in the statements *)

Module Text.

Local Open Scope N_scope.

(** Code points are below [0x110000]. *)
Definition code_points (s : pystr) : Prop := Forall (fun c => c < 0x110000) s.

(** No code point in [D800..DBFF] is directly followed by one in
    [DC00..DFFF]: the text holds no surrogate pair whose halves are
    separate code points. *)
Fixpoint no_split_pair (s : pystr) : bool :=
  match s with
  | a :: s' =>
      match s' with
      | b :: _ =>
          negb (JsonRead.is_high_surrogate a && JsonRead.is_low_surrogate b)
          && no_split_pair s'
      | [] => true
      end
  | [] => true
  end.

(** A printable ASCII character other than the quote and the backslash:
    one that a JSON string holds as it is. *)
Definition plain (c : N) : bool :=
  (32 <=? c) && (c <=? 126) && negb (c =? 34) && negb (c =? 92).

(** A text of ASCII characters as bytes, one per character. *)
Definition bytes_of (s : pystr) : bytes :=
  string_of_list_ascii (map ascii_of_N s).

(** The text [t] does not begin with the escape of a code point in
    [DC00..DFFF]. *)
Definition no_low_escape (t : string) : bool :=
  match t with
  | String b (String u t') =>
      if (N_of_ascii b =? 92) && (N_of_ascii u =? 117) then
        match t' with
        | String g1 (String g2 (String g3 (String g4 _))) =>
            match JsonRead.hex4 g1 g2 g3 g4 with
            | Some v => negb (JsonRead.is_low_surrogate v)
            | None => false
            end
        | _ => false
        end
      else true
  | _ => true
  end.

End Text.

(** ** Notions used in the further properties *)

Module More.

(** The value of a run of decimal digits, read from the left onto [acc]. *)
Fixpoint digits_value (d : Decimal.uint) (acc : N) : N :=
  match d with
  | Decimal.Nil => acc
  | Decimal.D0 l => digits_value l (10 * acc + 0)%N
  | Decimal.D1 l => digits_value l (10 * acc + 1)%N
  | Decimal.D2 l => digits_value l (10 * acc + 2)%N
  | Decimal.D3 l => digits_value l (10 * acc + 3)%N
  | Decimal.D4 l => digits_value l (10 * acc + 4)%N
  | Decimal.D5 l => digits_value l (10 * acc + 5)%N
  | Decimal.D6 l => digits_value l (10 * acc + 6)%N
  | Decimal.D7 l => digits_value l (10 * acc + 7)%N
  | Decimal.D8 l => digits_value l (10 * acc + 8)%N
  | Decimal.D9 l => digits_value l (10 * acc + 9)%N
  end.

(** The digits of [n] are within the interpreter's limit. *)
Definition within_digit_limit (env : Env) (n : Z) : Prop :=
  (max_str_digits env = 0
   \/ N.of_nat (length (str_of_int (Z.abs n))) <= max_str_digits env)%N.

(** Bytes that are printable ASCII characters, blank to tilde. *)
Definition printable_text (b : bytes) : Prop :=
  Forall (fun c => (32 <= N_of_ascii c /\ N_of_ascii c <= 126)%N)
         (list_ascii_of_string b).

(** What one request is answered with by a server that holds [score] and
    [label]: the calls of [do_POST] for the method POST, those of error
    501 for any other. *)
Definition answer (env : Env) (score label : pyval) (r : Http.request)
  : list Http.call :=
  if String.eqb (Http.command r) "POST"
  then Http.post_calls env score label
  else Http.error_calls env r.

(** A process that serves with a server object that has no attribute
    yet: the state [HTTPServer] and [serve_forever] alone would leave. *)
Definition bare_server : Process.process :=
  {| Process.stdout := []; Process.listening := [8080];
     Process.heap := <[0%nat := ∅]> ∅; Process.next_ref := 1%nat;
     Process.assigned := []; Process.serving := Some 0%nat |}.

(** A process that serves with a server object that holds [score] and
    [label], whatever they are. *)
Definition server_with (score label : pyval) : Process.process :=
  {| Process.stdout := []; Process.listening := [8080];
     Process.heap := <[0%nat := <["score" := score]> (<["label" := label]> ∅)]> ∅;
     Process.next_ref := 1%nat;
     Process.assigned := [(0%nat, "label"); (0%nat, "score")];
     Process.serving := Some 0%nat |}.

(** A text with every code point in [D800..DBFF] that is directly
    followed by one in [DC00..DFFF] replaced, with its follower, by the
    code point the two are the halves of; from left to right. *)
Fixpoint join_pairs (s : pystr) : pystr :=
  match s with
  | a :: s' =>
      match s' with
      | b :: s'' =>
          if JsonRead.is_high_surrogate a && JsonRead.is_low_surrogate b
          then JsonRead.join_surrogates a b :: join_pairs s''
          else a :: join_pairs s'
      | [] => [a]
      end
  | [] => []
  end.

End More.

(** An environment for the examples: no Unicode spaces or digits beyond
    ASCII, the usual limit of 4300 digits, port 80 refused with error 13
    ([EACCES]) and every other port granted, a standard output in UTF-8
    with the [strict] error handler. *)
Definition sample_env : Env :=
  {| unicode_isspace := fun _ => false;
     unicode_decimal := fun _ => None;
     max_str_digits := 4300;
     os_bind := fun port => if port =? 80 then Some 13 else None;
     float_shortest_repr := fun _ => EmptyString;
     version_string := "BaseHTTP/0.6 Python/3.11.2";
     str_repr := fun s => "'" +:+ s +:+ "'";
     error_document := fun _ message _ => "<p>" +:+ message +:+ "</p>";
     stdout_encodes := fun c => ((c <? 0xd800) || (0xdfff <? c))%N;
     ephemeral_port := 49152 |}.

Definition sample_request (method : string) : Http.request :=
  {| Http.command := method; Http.path := "/score";
     Http.request_version := "HTTP/1.1";
     Http.headers := [("Host", "localhost")]; Http.rfile := "{}" |}.

Definition sample_argv : list pystr :=
  [py "mock_llm_service.py"; py "left"; py "8080"].

(** The process that [sample_argv] starts. *)
Definition sample_process : Process.process :=
  snd (Process.python sample_env sample_argv).

(** * Facts *)

(** ** Strings and bits *)

(** Appending to a text that starts with known characters computes. *)
#[local] Arguments String.append !s1 s2 : simpl nomatch.

Lemma append_assoc (a b c : string) : (a +:+ b) +:+ c = a +:+ (b +:+ c).
Proof. induction a as [|x a IH]; [reflexivity | cbn; f_equal; exact IH]. Qed.

Lemma append_nil_r (a : string) : a +:+ EmptyString = a.
Proof. induction a as [|x a IH]; [reflexivity | cbn; f_equal; exact IH]. Qed.

(** Moving a fact about [N] with divisions by constants to [Z], where
    [lia] decides it. *)
Ltac n_to_z :=
  repeat rewrite ?N2Z.inj_add, ?N2Z.inj_mul, ?N2Z.inj_mod, ?N2Z.inj_div,
    ?N2Z.inj_sub by lia;
  repeat match goal with
         | |- context [Z.of_N (Npos ?p)] => change (Z.of_N (Npos p)) with (Zpos p)
         end.

Lemma hex_split (n : N) :
  (n < 65536 ->
   n / 4096 mod 16 * 4096 + n / 256 mod 16 * 256 + n / 16 mod 16 * 16 + n mod 16 = n)%N.
Proof.
  intros H. apply N2Z.inj. n_to_z.
  assert (0 <= Z.of_N n < 65536) as Hz by lia.
  generalize dependent (Z.of_N n). intros z Hz.
  Z.div_mod_to_equations. lia.
Qed.

Lemma halves_split (n : N) :
  (n < 1048576 -> n / 1024 mod 1024 * 1024 + n mod 1024 = n)%N.
Proof.
  intros H. apply N2Z.inj. n_to_z.
  assert (0 <= Z.of_N n < 1048576) as Hz by lia.
  generalize dependent (Z.of_N n). intros z Hz.
  Z.div_mod_to_equations. lia.
Qed.

(** Bits that do not overlap add up. *)
Lemma lor_shifted (a b n : N) :
  (b < 2 ^ n -> N.lor (a * 2 ^ n) b = a * 2 ^ n + b)%N.
Proof.
  intros Hb.
  assert (N.land (a * 2 ^ n) b = 0%N) as Hdis.
  { apply N.bits_inj. intros i. rewrite N.land_spec, N.bits_0.
    destruct (N.lt_ge_cases i n) as [Hi | Hi].
    - rewrite N.mul_pow2_bits_low by exact Hi. reflexivity.
    - destruct (N.eq_dec b 0%N) as [-> | Hnz].
      + rewrite N.bits_0. apply andb_false_r.
      + rewrite (N.bits_above_log2 b i), andb_false_r; [reflexivity |].
        apply N.log2_lt_pow2; [lia |].
        apply N.lt_le_trans with (2 ^ n)%N; [exact Hb |].
        apply N.pow_le_mono_r; lia. }
  rewrite N.add_nocarry_lxor by exact Hdis.
  symmetry. apply N.lxor_lor. exact Hdis.
Qed.

(** ** Escaping a string and reading it back *)

Module StringFacts.

Import Json JsonRead Text.

Local Open Scope N_scope.

Lemma hex_value_digit (d : N) : d < 16 -> hex_value (hex_digit d) = Some d.
Proof.
  intros H.
  destruct d as [|p]; [reflexivity |].
  do 4 (destruct p as [p | p |]; try reflexivity); lia.
Qed.

Lemma mod16_lt (n : N) : n mod 16 < 16.
Proof. apply N.mod_lt. lia. Qed.

(** The four digits of an escape read back as the number escaped. *)
Lemma u_escape_shape (n : N) (rest : string) :
  n < 65536 ->
  exists h1 h2 h3 h4,
    u_escape n +:+ rest
    = String "\" (String "u" (String h1 (String h2 (String h3 (String h4 rest)))))
    /\ hex4 h1 h2 h3 h4 = Some n.
Proof.
  intros H.
  exists (hex_digit (n / 4096 mod 16)), (hex_digit (n / 256 mod 16)),
         (hex_digit (n / 16 mod 16)), (hex_digit (n mod 16)).
  split; [reflexivity |].
  unfold hex4. rewrite !hex_value_digit by apply mod16_lt.
  f_equal. apply hex_split. exact H.
Qed.

(** One step of [scanstring] on an escape [\uXXXX]. *)
Lemma scan_u (h1 h2 h3 h4 : ascii) (s3 : string) :
  scanstring (String "\" (String "u" (String h1 (String h2 (String h3 (String h4 s3))))))
  = match hex4 h1 h2 h3 h4 with
    | None => None
    | Some uni =>
        match s3 with
        | String b (String u s4) =>
            if is_high_surrogate uni && (N_of_ascii b =? 92) && (N_of_ascii u =? 117)
            then
              match s4 with
              | String g1 (String g2 (String g3 (String g4 s5))) =>
                  match hex4 g1 g2 g3 g4 with
                  | None => None
                  | Some uni2 =>
                      if is_low_surrogate uni2
                      then push (join_surrogates uni uni2) (scanstring s5)
                      else push uni (scanstring s3)
                  end
              | _ => None
              end
            else push uni (scanstring s3)
        | _ => push uni (scanstring s3)
        end
    end.
Proof. reflexivity. Qed.

(** An escape that is not the first half of a pair stands for itself. *)
Lemma scan_u_lone (h1 h2 h3 h4 : ascii) (uni : N) (t : string) :
  hex4 h1 h2 h3 h4 = Some uni ->
  (is_high_surrogate uni = true -> no_low_escape t = true) ->
  scanstring (String "\" (String "u" (String h1 (String h2 (String h3 (String h4 t))))))
  = push uni (scanstring t).
Proof.
  intros Hhex Hsafe. rewrite scan_u, Hhex.
  destruct t as [|b [|u s4]]; try reflexivity.
  destruct (is_high_surrogate uni) eqn:Hhigh; [| reflexivity].
  specialize (Hsafe eq_refl). cbn [no_low_escape] in Hsafe. cbn [andb].
  destruct ((N_of_ascii b =? 92) && (N_of_ascii u =? 117)) eqn:Hbu;
    [| reflexivity].
  destruct s4 as [|g1 [|g2 [|g3 [|g4 s5]]]]; try discriminate.
  destruct (hex4 g1 g2 g3 g4) as [uni2|]; [| discriminate].
  apply negb_true_iff in Hsafe. rewrite Hsafe. reflexivity.
Qed.

(** Two escapes that are the halves of a pair stand for one code point. *)
Lemma scan_u_pair (h1 h2 h3 h4 g1 g2 g3 g4 : ascii) (hi lo : N) (t : string) :
  hex4 h1 h2 h3 h4 = Some hi -> hex4 g1 g2 g3 g4 = Some lo ->
  is_high_surrogate hi = true -> is_low_surrogate lo = true ->
  scanstring
    (String "\" (String "u" (String h1 (String h2 (String h3 (String h4
      (String "\" (String "u" (String g1 (String g2 (String g3 (String g4 t))))))))))))
  = push (join_surrogates hi lo) (scanstring t).
Proof.
  intros Hh Hg Hhi Hlo. rewrite scan_u, Hh, Hhi. cbn [andb N_of_ascii].
  change (N_of_ascii "\" =? 92) with true. change (N_of_ascii "u" =? 117) with true.
  cbn [andb]. rewrite Hg, Hlo. reflexivity.
Qed.

(** A printable character other than the quote and the backslash. *)
Lemma scan_plain (c : N) (t : string) :
  32 <= c -> c <= 126 -> c <> 34 -> c <> 92 ->
  scanstring (String (ascii_of_N c) t) = push c (scanstring t).
Proof.
  intros H1 H2 H3 H4. cbn [scanstring].
  rewrite N_ascii_embedding by lia.
  apply N.eqb_neq in H3, H4. rewrite H3, H4.
  replace (c <? 32) with false by (symmetry; apply N.ltb_ge; lia).
  replace (128 <=? c) with false by (symmetry; apply N.leb_gt; lia).
  reflexivity.
Qed.

(** The halves that the encoder computes for a code point from
    [0x10000] on. *)
Lemma surrogate_halves (c : N) :
  0x10000 <= c -> c < 0x110000 ->
  let n := c - 0x10000 in
  let s1 := N.lor 0xd800 (N.land (N.shiftr n 10) 0x3ff) in
  let s2 := N.lor 0xdc00 (N.land n 0x3ff) in
  s1 < 65536 /\ s2 < 65536 /\
  is_high_surrogate s1 = true /\ is_low_surrogate s2 = true /\
  join_surrogates s1 s2 = c.
Proof.
  intros Hlo Hhi n s1 s2.
  assert (n < 1048576) as Hn by (unfold n; lia).
  assert (s1 = 0xd800 + n / 1024 mod 1024) as E1.
  { unfold s1. change 0x3ff with (N.ones 10).
    rewrite N.land_ones, N.shiftr_div_pow2.
    change 0xd800 with (54 * 2 ^ 10). change (2 ^ 10) with 1024.
    change 1024 with (2 ^ 10) at 1.
    apply lor_shifted. apply N.mod_lt. discriminate. }
  assert (s2 = 0xdc00 + n mod 1024) as E2.
  { unfold s2. change 0x3ff with (N.ones 10). rewrite N.land_ones.
    change 0xdc00 with (55 * 2 ^ 10). apply lor_shifted.
    apply N.mod_lt. discriminate. }
  assert (n / 1024 mod 1024 < 1024) as B1 by (apply N.mod_lt; discriminate).
  assert (n mod 1024 < 1024) as B2 by (apply N.mod_lt; discriminate).
  pose proof (halves_split n Hn) as Hsplit.
  assert (n + 0x10000 = c) as Hc by (unfold n; lia).
  rewrite E1, E2. clear E1 E2 s1 s2.
  set (q := n / 1024 mod 1024) in *. set (r := n mod 1024) in *.
  clearbody q r n.
  repeat split; try lia.
  - unfold is_high_surrogate. apply andb_true_iff.
    split; apply N.leb_le; lia.
  - unfold is_low_surrogate. apply andb_true_iff.
    split; apply N.leb_le; lia.
  - unfold join_surrogates.
    replace (0xd800 + q - 0xd800) with q by lia.
    replace (0xdc00 + r - 0xdc00) with r by lia.
    rewrite N.shiftl_mul_pow2, lor_shifted by exact B2.
    change (2 ^ 10) with 1024. lia.
Qed.

(** What one code point is escaped to reads back as that code point,
    unless it is the first half of a pair and the second half follows. *)
Lemma scan_escape_char (c : N) (t : string) :
  c < 0x110000 ->
  (is_high_surrogate c = true -> no_low_escape t = true) ->
  scanstring (escape_char c +:+ t) = push c (scanstring t).
Proof.
  intros Hc Hsafe. unfold escape_char.
  destruct (N.eqb_spec c 34) as [-> | H34]; [reflexivity |].
  destruct (N.eqb_spec c 92) as [-> | H92]; [reflexivity |].
  destruct (N.eqb_spec c 8) as [-> | H8]; [reflexivity |].
  destruct (N.eqb_spec c 12) as [-> | H12]; [reflexivity |].
  destruct (N.eqb_spec c 10) as [-> | H10]; [reflexivity |].
  destruct (N.eqb_spec c 13) as [-> | H13]; [reflexivity |].
  destruct (N.eqb_spec c 9) as [-> | H9]; [reflexivity |].
  destruct ((32 <=? c) && (c <=? 126)) eqn:Hprint.
  { apply andb_true_iff in Hprint. destruct Hprint as [Hl Hu].
    apply N.leb_le in Hl, Hu. cbn [append]. apply scan_plain; assumption. }
  destruct (N.ltb_spec c 0x10000) as [Hbmp | Hastral].
  - destruct (u_escape_shape c t Hbmp) as (h1 & h2 & h3 & h4 & E & Hh).
    rewrite E. apply scan_u_lone; assumption.
  - cbv zeta.
    destruct (surrogate_halves c Hastral Hc) as (B1 & B2 & Hhi & Hlo & Hjoin).
    rewrite append_assoc.
    destruct (u_escape_shape _ t B2) as (g1 & g2 & g3 & g4 & E2 & Hg).
    rewrite E2.
    destruct (u_escape_shape _
                (String "\" (String "u" (String g1 (String g2 (String g3 (String g4 t))))))
                B1)
      as (h1 & h2 & h3 & h4 & E1 & Hh).
    rewrite E1, (scan_u_pair _ _ _ _ _ _ _ _ _ _ t Hh Hg Hhi Hlo), Hjoin.
    reflexivity.
Qed.

Lemma high_not_low (u : N) : is_high_surrogate u = true -> is_low_surrogate u = false.
Proof.
  unfold is_high_surrogate, is_low_surrogate. intros H.
  apply andb_true_iff in H. destruct H as [_ H]. apply N.leb_le in H.
  apply andb_false_iff. left. apply N.leb_gt. lia.
Qed.

(** What a code point outside [DC00..DFFF] is escaped to does not begin
    with the escape of a second half. *)
Lemma no_low_escape_head (c : N) (t : string) :
  c < 0x110000 -> is_low_surrogate c = false ->
  no_low_escape (escape_char c +:+ t) = true.
Proof.
  intros Hc Hlow. unfold escape_char.
  destruct (N.eqb_spec c 34) as [-> | H34]; [reflexivity |].
  destruct (N.eqb_spec c 92) as [-> | H92]; [reflexivity |].
  destruct (N.eqb_spec c 8) as [-> | H8]; [reflexivity |].
  destruct (N.eqb_spec c 12) as [-> | H12]; [reflexivity |].
  destruct (N.eqb_spec c 10) as [-> | H10]; [reflexivity |].
  destruct (N.eqb_spec c 13) as [-> | H13]; [reflexivity |].
  destruct (N.eqb_spec c 9) as [-> | H9]; [reflexivity |].
  destruct ((32 <=? c) && (c <=? 126)) eqn:Hprint.
  { apply andb_true_iff in Hprint. destruct Hprint as [Hl Hu].
    apply N.leb_le in Hl, Hu. cbn [append].
    destruct t as [|u t']; [reflexivity |]. cbn [no_low_escape].
    rewrite N_ascii_embedding by lia.
    apply N.eqb_neq in H92. rewrite H92. reflexivity. }
  destruct (N.ltb_spec c 0x10000) as [Hbmp | Hastral].
  - destruct (u_escape_shape c t Hbmp) as (h1 & h2 & h3 & h4 & E & Hh).
    rewrite E. cbn [no_low_escape]. rewrite Hh, Hlow. reflexivity.
  - cbv zeta.
    destruct (surrogate_halves c Hastral Hc) as (B1 & B2 & Hhi & Hlo & Hjoin).
    rewrite append_assoc.
    destruct (u_escape_shape _ (u_escape (N.lor 0xdc00 (N.land (c - 0x10000) 0x3ff)) +:+ t) B1)
      as (h1 & h2 & h3 & h4 & E1 & Hh).
    rewrite E1. cbn [no_low_escape]. rewrite Hh, (high_not_low _ Hhi). reflexivity.
Qed.

Lemma no_low_escape_chars (l : pystr) (rest : string) :
  code_points l ->
  match l with c :: _ => is_low_surrogate c = false | [] => True end ->
  no_low_escape (escape_chars l +:+ String dquote rest) = true.
Proof.
  intros Hcp Hhead. destruct l as [|c l].
  - destruct rest; reflexivity.
  - cbn [escape_chars]. rewrite append_assoc.
    apply no_low_escape_head; [| exact Hhead].
    apply Forall_inv in Hcp. exact Hcp.
Qed.

(** The escaped text of a string, up to its closing quote, reads back as
    the string. *)
Lemma scan_escape_chars (l : pystr) (rest : string) :
  code_points l -> no_split_pair l = true ->
  scanstring (escape_chars l +:+ String dquote rest) = Some (l, rest).
Proof.
  induction l as [|c l IH]; intros Hcp Hns; [reflexivity |].
  cbn [escape_chars]. rewrite append_assoc.
  pose proof (Forall_inv Hcp) as Hc. pose proof (Forall_inv_tail Hcp) as Hl.
  assert (no_split_pair l = true) as Hns'.
  { destruct l; [reflexivity |]. cbn [no_split_pair] in Hns.
    apply andb_true_iff in Hns. apply Hns. }
  rewrite scan_escape_char; [rewrite (IH Hl Hns'); reflexivity | exact Hc |].
  intros Hhigh. apply no_low_escape_chars; [exact Hl |].
  destruct l as [|d l]; [exact I |].
  cbn [no_split_pair] in Hns. apply andb_true_iff in Hns. destruct Hns as [Hns _].
  rewrite Hhigh in Hns. cbn [andb] in Hns. apply negb_true_iff in Hns. exact Hns.
Qed.

End StringFacts.

(** ** The handler's JSON text and what it reads back as *)

Module PayloadFacts.

Import Json JsonRead Text.

Lemma floatstr_score (rep : float -> string) (label : pystr) :
  floatstr rep (Score.score_of_label label)
  = if decide (label = py "left") then "-1.0"
    else if decide (label = py "right") then "1.0" else "0.0".
Proof.
  unfold Score.score_of_label. repeat case_decide; try reflexivity.
  subst; discriminate.
Qed.

(** The text that [dumps] writes for the handler's dictionary. *)
Lemma dumps_shape (rep : float -> string) (score : float) (label : pystr) :
  dumps rep [(py "score", VFloat score); (py "label", VStr label)]
  = String "{" (String dquote ("score" +:+ String dquote (": " +:+
      floatstr rep score +:+ ", " +:+ String dquote ("label" +:+ String dquote (": " +:+
      String dquote (escape_chars label +:+ String dquote "}")))))).
Proof.
  unfold dumps, dumps_items, dumps_value, encode_basestring_ascii.
  change (escape_chars (py "score")) with "score"%string.
  change (escape_chars (py "label")) with "label"%string.
  cbn [append]. rewrite !append_assoc. cbn [append].
  rewrite !append_assoc. cbn [append]. reflexivity.
Qed.

Lemma skip_ws_nonspace (a : ascii) (s : string) :
  is_ws a = false -> skip_ws (String a s) = String a s.
Proof. intros H. cbn [skip_ws]. rewrite H. reflexivity. Qed.

Lemma parse_object_open (f : nat) (s : string) :
  parse_value (S f) (String "{" (String dquote s))
  = match parse_members f (String dquote s) with
    | Some (ms, r) => Some (JObject ms, r)
    | None => None
    end.
Proof. reflexivity. Qed.

Lemma parse_string_value (f : nat) (t : string) :
  parse_value (S f) (String dquote t)
  = match scanstring t with
    | Some (l, r) => Some (JString l, r)
    | None => None
    end.
Proof. reflexivity. Qed.

(** A member [key: value] of an object, once its key is read. *)
Lemma parse_member (f : nat) (s1 v : string) (k : pystr) :
  scanstring s1 = Some (k, String ":" (String " " v)) ->
  parse_members (S f) (String dquote s1)
  = match parse_value f (skip_ws v) with
    | Some (x, s4) =>
        match skip_ws s4 with
        | String d s5 =>
            if (d =? ",")%char then
              match parse_members f (skip_ws s5) with
              | Some (ms, r) => Some ((k, x) :: ms, r)
              | None => None
              end
            else if (d =? "}")%char then Some ([(k, x)], s5)
            else None
        | EmptyString => None
        end
    | None => None
    end.
Proof.
  intros H.
  transitivity
    (match scanstring s1 with
     | Some (k, s2) =>
         match skip_ws s2 with
         | String colon s3 =>
             if (colon =? ":")%char then
               match parse_value f (skip_ws s3) with
               | Some (v, s4) =>
                   match skip_ws s4 with
                   | String d s5 =>
                       if (d =? ",")%char then
                         match parse_members f (skip_ws s5) with
                         | Some (ms, r) => Some ((k, v) :: ms, r)
                         | None => None
                         end
                       else if (d =? "}")%char then Some ([(k, v)], s5)
                       else None
                   | EmptyString => None
                   end
               | None => None
               end
             else None
         | EmptyString => None
         end
     | None => None
     end); [reflexivity |].
  rewrite H. reflexivity.
Qed.

Lemma parse_member_more (f : nat) (s1 v s6 r : string) (a : ascii)
    (k : pystr) (x : json) (ms : list (pystr * json)) :
  scanstring s1 = Some (k, String ":" (String " " (String a v))) ->
  is_ws a = false ->
  parse_value f (String a v) = Some (x, String "," (String " " (String dquote s6))) ->
  parse_members f (String dquote s6) = Some (ms, r) ->
  parse_members (S f) (String dquote s1) = Some ((k, x) :: ms, r).
Proof.
  intros Hk Ha Hv Hms.
  rewrite (parse_member f s1 (String a v) k Hk), (skip_ws_nonspace a v Ha), Hv.
  transitivity
    (match parse_members f (String dquote s6) with
     | Some (ms0, r0) => Some ((k, x) :: ms0, r0)
     | None => None
     end); [reflexivity |].
  rewrite Hms. reflexivity.
Qed.

Lemma parse_member_last (f : nat) (s1 v r : string) (a : ascii)
    (k : pystr) (x : json) :
  scanstring s1 = Some (k, String ":" (String " " (String a v))) ->
  is_ws a = false ->
  parse_value f (String a v) = Some (x, String "}" r) ->
  parse_members (S f) (String dquote s1) = Some ([(k, x)], r).
Proof.
  intros Hk Ha Hv.
  rewrite (parse_member f s1 (String a v) k Hk), (skip_ws_nonspace a v Ha), Hv.
  reflexivity.
Qed.

(** The three numbers the program writes. *)
Lemma parse_score (f : nat) (lit rest : string) :
  lit = "-1.0"%string \/ lit = "0.0"%string \/ lit = "1.0"%string ->
  parse_value (S f) (lit +:+ String "," rest) = Some (JNumber lit, String "," rest).
Proof. intros [-> | [-> | ->]]; reflexivity. Qed.

Lemma scan_key (k rest : string) :
  k = "score"%string \/ k = "label"%string ->
  scanstring (k +:+ String dquote rest) = Some (py k, rest).
Proof. intros [-> | ->]; reflexivity. Qed.

(** The handler's text, for a score that is one of the three, reads back
    as an object with the two members in the order written. *)
Lemma loads_shape (lit : string) (label : pystr) :
  lit = "-1.0"%string \/ lit = "0.0"%string \/ lit = "1.0"%string ->
  code_points label -> no_split_pair label = true ->
  loads (String "{" (String dquote ("score" +:+ String dquote (": " +:+
      lit +:+ ", " +:+ String dquote ("label" +:+ String dquote (": " +:+
      String dquote (escape_chars label +:+ String dquote "}")))))))
  = Some (JObject [(py "score", JNumber lit); (py "label", JString label)]).
Proof.
  intros Hlit Hcp Hns.
  pose proof (StringFacts.scan_escape_chars label "}" Hcp Hns) as Hscan.
  set (t := escape_chars label +:+ String dquote "}") in *.
  assert (exists a v, lit = String a v /\ is_ws a = false) as (a & v & -> & Ha).
  { destruct Hlit as [-> | [-> | ->]]; eexists _, _; split; reflexivity. }
  assert (forall f,
      parse_members (S (S (S f)))
        (String dquote ("score" +:+ String dquote (": " +:+
           String a v +:+ ", " +:+ String dquote ("label" +:+ String dquote (": " +:+
           String dquote t)))))
      = Some ([(py "score", JNumber (String a v)); (py "label", JString label)],
              EmptyString)) as Hmembers.
  { intros f.
    apply (parse_member_more _ _ (v +:+ ", " +:+ String dquote ("label" +:+
             String dquote (": " +:+ String dquote t)))
             ("label" +:+ String dquote (": " +:+ String dquote t))
             EmptyString a).
    - apply (scan_key "score"). left; reflexivity.
    - exact Ha.
    - apply (parse_score _ (String a v)). exact Hlit.
    - apply (parse_member_last _ _ t EmptyString dquote).
      + apply (scan_key "label"). right; reflexivity.
      + reflexivity.
      + rewrite parse_string_value, Hscan. reflexivity. }
  unfold loads. rewrite skip_ws_nonspace by reflexivity.
  cbn [String.length append].
  rewrite parse_object_open.
  cbn [append] in Hmembers. rewrite Hmembers. reflexivity.
Qed.

Lemma loads_payload (rep : float -> string) (label : pystr) :
  code_points label -> no_split_pair label = true ->
  loads (dumps rep [(py "score", VFloat (Score.score_of_label label));
                    (py "label", VStr label)])
  = Some (JObject [(py "score", JNumber (floatstr rep (Score.score_of_label label)));
                   (py "label", JString label)]).
Proof.
  intros Hcp Hns. rewrite dumps_shape.
  apply loads_shape; [| exact Hcp | exact Hns].
  rewrite floatstr_score. repeat case_decide; auto.
Qed.

End PayloadFacts.

(** ** The process from start to [serve_forever] *)

Module ProcessFacts.

Import Process.

Section ProcessFacts.

Context (env : Env).

Lemma main_usage (argv : list pystr) :
  length argv <> 3%nat ->
  main env argv initial
  = (Py.Raise (Py.SystemExit 1),
     {| stdout := [usage]; listening := []; heap := ∅; next_ref := 0%nat;
        assigned := []; serving := None |}).
Proof.
  intros H. unfold main.
  destruct (length argv =? 3)%nat eqn:E.
  - apply Nat.eqb_eq in E. contradiction.
  - reflexivity.
Qed.

Lemma main_three (prog label port_text : pystr) :
  main env [prog; label; port_text]
  = (let* port := int env port_text in run env label port).
Proof. reflexivity. Qed.

Lemma run_raises (label : pystr) (port : Z) (e : Py.exn) (p : process) :
  bind_failure env port = Some e -> run env label port p = (Py.Raise e, p).
Proof. intros H. unfold run, Py.bind, HTTPServer. rewrite H. reflexivity. Qed.

Lemma run_serves (label : pystr) (port : Z) :
  bind_failure env port = None ->
  stdout_takes env (banner label port) = true ->
  run env label port initial = (Py.Forever, started env label port).
Proof.
  intros H Hout. unfold run, Py.bind, HTTPServer. rewrite H.
  unfold setattr, print, serve_forever, Py.modify, started, initial.
  cbn beta iota. rewrite Hout.
  cbn [stdout listening heap next_ref assigned serving app].
  rewrite !lookup_insert_eq. cbn [default].
  rewrite !insert_insert_eq. reflexivity.
Qed.

(** When the line cannot be printed, [run] ends there: the socket
    listens and the server object is complete, but nothing is served. *)
Lemma run_silent (label : pystr) (port : Z) :
  bind_failure env port = None ->
  stdout_takes env (banner label port) = false ->
  run env label port initial = (Py.Raise Py.UnicodeEncodeError, bound env label port).
Proof.
  intros H Hout. unfold run, Py.bind, HTTPServer. rewrite H.
  unfold setattr, print, Py.modify, bound, initial.
  cbn beta iota. rewrite Hout.
  cbn [stdout listening heap next_ref assigned serving app].
  rewrite !lookup_insert_eq. cbn [default].
  rewrite !insert_insert_eq. reflexivity.
Qed.

Lemma bind_failure_not_exit (port : Z) (e : Py.exn) :
  bind_failure env port = Some e ->
  e = Py.OverflowError \/ exists errno, e = Py.OSError errno.
Proof.
  unfold bind_failure. destruct ((port <? 0) || (65535 <? port)).
  - intros [= <-]. left; reflexivity.
  - destruct (os_bind env port) as [errno|]; [| discriminate].
    intros [= <-]. right. exists errno. reflexivity.
Qed.

(** Every way the program can go, from [sys.argv]. *)
Lemma python_three (prog label port_text : pystr) :
  python env [prog; label; port_text]
  = match Int.int_of_str env port_text with
    | None => (Exited 1 (Some Py.ValueError), initial)
    | Some port =>
        match bind_failure env port with
        | Some e => (Exited 1 (Some e), initial)
        | None =>
            if stdout_takes env (banner label port)
            then (Serving, started env label port)
            else (Exited 1 (Some Py.UnicodeEncodeError), bound env label port)
        end
    end.
Proof.
  unfold python. rewrite main_three. unfold Py.bind, int.
  destruct (Int.int_of_str env port_text) as [port|]; [| reflexivity].
  cbn [Py.ret].
  destruct (bind_failure env port) as [e|] eqn:Hb.
  - rewrite (run_raises _ _ _ _ Hb).
    destruct (bind_failure_not_exit _ _ Hb) as [-> | [errno ->]]; reflexivity.
  - destruct (stdout_takes env (banner label port)) eqn:Hout.
    + rewrite (run_serves _ _ Hb Hout). reflexivity.
    + rewrite (run_silent _ _ Hb Hout). reflexivity.
Qed.

(** A process that serves was started with a label and a port that
    could be bound. *)
Lemma python_serving (argv : list pystr) (p : process) :
  python env argv = (Serving, p) ->
  exists prog label port_text port,
    argv = [prog; label; port_text]
    /\ Int.int_of_str env port_text = Some port
    /\ bind_failure env port = None
    /\ p = started env label port.
Proof.
  intros H.
  destruct (Nat.eq_dec (length argv) 3%nat) as [Hlen | Hlen].
  - destruct argv as [|prog [|label [|port_text [|x argv]]]];
      try (cbn [length] in Hlen; lia).
    rewrite python_three in H.
    destruct (Int.int_of_str env port_text) as [port|] eqn:Hint; [| discriminate].
    destruct (bind_failure env port) as [e|] eqn:Hb; [discriminate |].
    destruct (stdout_takes env (banner label port)); [| discriminate].
    injection H as <-. exists prog, label, port_text, port. auto.
  - unfold python in H. rewrite (main_usage argv Hlen) in H. discriminate.
Qed.

Lemma started_label (label : pystr) (port : Z) :
  getattr 0 "label" (started env label port) = (Py.Return (VStr label), started env label port).
Proof.
  unfold getattr, started. cbn [heap].
  rewrite lookup_insert_eq, lookup_insert_ne by discriminate.
  rewrite lookup_insert_eq. reflexivity.
Qed.

Lemma started_score (label : pystr) (port : Z) :
  getattr 0 "score" (started env label port)
  = (Py.Return (VFloat (Score.score_of_label label)), started env label port).
Proof.
  unfold getattr, started. cbn [heap].
  rewrite !lookup_insert_eq. reflexivity.
Qed.

End ProcessFacts.
End ProcessFacts.

(** ** The handler on one request *)

Module HttpFacts.

Import Process Http.

Section HttpFacts.

Context (env : Env).

(** Reading an attribute leaves the process as it is. *)
Lemma getattr_process (o : nat) (name : string) (p : process) :
  snd (getattr o name p) = p.
Proof.
  unfold getattr. destruct (heap p !! o) as [attrs|]; [| reflexivity].
  destruct (attrs !! name); reflexivity.
Qed.

Lemma do_POST_calls (self : handler) (p : process) (score label : pyval) :
  getattr (server self) "score" p = (Py.Return score, p) ->
  getattr (server self) "label" p = (Py.Return label, p) ->
  do_POST env self {| proc := p; sent := [] |}
  = (Py.Return tt, {| proc := p; sent := post_calls env score label |}).
Proof.
  intros Hs Hl. unfold do_POST, Py.bind, lift. cbn [proc sent].
  rewrite Hs. cbn [proc sent]. rewrite Hl. reflexivity.
Qed.

Lemma do_POST_process (self : handler) (h : hstate) :
  proc (snd (do_POST env self h)) = proc h.
Proof.
  unfold do_POST, Py.bind, lift.
  pose proof (getattr_process (server self) "score" (proc h)) as Hs.
  destruct (getattr (server self) "score" (proc h)) as [[score | e |] p1];
    cbn [snd] in Hs; subst p1; try reflexivity.
  cbn [proc sent].
  pose proof (getattr_process (server self) "label" (proc h)) as Hl.
  destruct (getattr (server self) "label" (proc h)) as [[label | e |] p2];
    cbn [snd] in Hl; subst p2; reflexivity.
Qed.

Lemma find_POST (c : string) :
  c = "POST"%string -> find_method ("do_" +:+ c) (Handler env) = Some (do_POST env).
Proof. intros ->. reflexivity. Qed.

Lemma find_other (c : string) :
  c <> "POST"%string -> find_method ("do_" +:+ c) (Handler env) = None.
Proof.
  intros H. unfold Handler. cbn [find_method append].
  change (String.eqb "do_POST" (String "d" (String "o" (String "_" c))))
    with (String.eqb "POST" c).
  destruct (String.eqb_spec "POST" c) as [E | E]; [congruence | reflexivity].
Qed.

Lemma send_error_501 (self : handler) (p : process) :
  send_error env self 501
    (Some ("Unsupported method (" +:+ str_repr env (command (req self)) +:+ ")"))
    {| proc := p; sent := [] |}
  = (Py.Return tt, {| proc := p; sent := error_calls env (req self) |}).
Proof.
  unfold send_error, error_calls.
  change (responses 501) with
    (Some ("Not Implemented"%string, "Server does not support this operation"%string)).
  cbv beta iota zeta delta [from_option id].
  change ((200 <=? 501) && negb ((501 =? 204) || (501 =? 205) || (501 =? 304)))
    with true.
  cbv iota.
  set (message := "Unsupported method (" +:+ _ +:+ ")").
  set (document := error_document env 501 message _).
  unfold Py.bind, send_header, end_headers, wfile_write, emit, Py.modify.
  cbn [proc sent app].
  destruct (negb (String.eqb (command (req self)) "HEAD")
            && negb (String.eqb document EmptyString)); reflexivity.
Qed.

Lemma handle_POST (p : process) (srv : nat) (r : request) (score label : pyval) :
  serving p = Some srv -> command r = "POST"%string ->
  getattr srv "score" p = (Py.Return score, p) ->
  getattr srv "label" p = (Py.Return label, p) ->
  handle env p r = Some (Py.Return tt, post_calls env score label, p).
Proof.
  intros Hsrv Hcmd Hs Hl. unfold handle, handle_one_request. rewrite Hsrv.
  rewrite (find_POST (command (req {| server := srv; req := r |})) Hcmd).
  rewrite (do_POST_calls {| server := srv; req := r |} p score label Hs Hl).
  reflexivity.
Qed.

Lemma handle_other (p : process) (srv : nat) (r : request) :
  serving p = Some srv -> command r <> "POST"%string ->
  handle env p r = Some (Py.Return tt, error_calls env r, p).
Proof.
  intros Hsrv Hcmd. unfold handle, handle_one_request. rewrite Hsrv.
  rewrite (find_other (command (req {| server := srv; req := r |})) Hcmd).
  rewrite (send_error_501 {| server := srv; req := r |} p). reflexivity.
Qed.

(** The calls of [do_POST], read as a response. *)
Lemma response_of_post_calls (score label : pyval) :
  response_of (post_calls env score label)
  = Some {| status := 200; reason := None;
            fields := [("Content-type"%string, "application/json"%string)];
            body := Json.dumps (float_shortest_repr env)
                      [(py "score", score); (py "label", label)] |}.
Proof.
  unfold post_calls. cbn [response_of read_fields read_body].
  rewrite append_nil_r. reflexivity.
Qed.

(** A POST request to the process that [run label port] started. *)
Lemma started_POST (label : pystr) (port : Z) (r : request) :
  command r = "POST"%string ->
  handle env (started env label port) r
  = Some (Py.Return tt,
          post_calls env (VFloat (Score.score_of_label label)) (VStr label),
          started env label port).
Proof.
  intros Hcmd. apply (handle_POST _ 0%nat); [reflexivity | exact Hcmd | |].
  - apply ProcessFacts.started_score.
  - apply ProcessFacts.started_label.
Qed.

(** Whatever the request, handling it leaves the process as it was. *)
Lemma handle_process (p p' : process) (r : request)
    (res : Py.result unit) (calls : list call) :
  handle env p r = Some (res, calls, p') -> p' = p.
Proof.
  unfold handle. destruct (serving p) as [srv|] eqn:Hsrv; [| discriminate].
  destruct (String.eqb_spec (command r) "POST") as [Hcmd | Hcmd].
  - unfold handle_one_request.
    rewrite (find_POST (command (req {| server := srv; req := r |})) Hcmd).
    pose proof (do_POST_process {| server := srv; req := r |}
                  {| proc := p; sent := [] |}) as H.
    destruct (do_POST env _ _) as [res0 h]. cbn [snd proc] in H.
    intros [= _ _ <-]. exact H.
  - pose proof (handle_other p srv r Hsrv Hcmd) as H.
    unfold handle in H. rewrite Hsrv in H. rewrite H. intros [= _ _ <-].
    reflexivity.
Qed.

Lemma serve_process (p : process) (rs : list request) :
  snd (serve env p rs) = p.
Proof.
  revert p. induction rs as [|r rs IH]; intros p; [reflexivity |].
  cbn [serve].
  destruct (handle env p r) as [[[res calls] p'] |] eqn:H; [| reflexivity].
  apply handle_process in H. subst p'.
  specialize (IH p). destruct (serve env p rs) as [out p'']. exact IH.
Qed.

End HttpFacts.
End HttpFacts.

(** ** What [int] accepts *)

Module IntFacts.

Import Int.

Section IntFacts.

Context (env : Env).

Local Open Scope N_scope.

Lemma skip_spaces_split (l : list N) :
  exists blanks,
    l = blanks ++ skip_spaces l /\ Forall (fun c => is_space c = true) blanks.
Proof.
  induction l as [|c l (blanks & E & H)].
  - exists []. split; [reflexivity | constructor].
  - cbn [skip_spaces]. destruct (is_space c) eqn:Hc.
    + exists (c :: blanks). split; [cbn [app]; f_equal; exact E |].
      constructor; assumption.
    + exists []. split; [reflexivity | constructor].
Qed.

Lemma skip_spaces_nil (l : list N) :
  skip_spaces l = [] -> Forall (fun c => is_space c = true) l.
Proof.
  induction l as [|c l IH]; [constructor |].
  cbn [skip_spaces]. destruct (is_space c) eqn:Hc; [| discriminate].
  intros H. constructor; [exact Hc | exact (IH H)].
Qed.

(** The digit loop stops where it leaves off: what it went over are
    digits and underscores. *)
Lemma scan_digits_split (l : list N) :
  forall acc digits prev v digits' rest,
    scan_digits l acc digits prev = Some (v, digits', rest) ->
    exists used,
      l = used ++ rest
      /\ Forall (fun c => is_digit c = true \/ c = 95) used.
Proof.
  induction l as [|c l IH]; intros acc digits prev v digits' rest H.
  - cbn [scan_digits] in H. destruct prev; [discriminate |].
    injection H as _ _ <-. exists []. split; [reflexivity | constructor].
  - cbn [scan_digits] in H. destruct (is_digit c) eqn:Hd.
    + destruct (IH _ _ _ _ _ _ H) as (used & E & Hu).
      exists (c :: used). split; [cbn [app]; f_equal; exact E |].
      constructor; [left; exact Hd | exact Hu].
    + destruct (N.eqb_spec c 95) as [-> | Hne].
      * destruct prev; [discriminate |].
        destruct (IH _ _ _ _ _ _ H) as (used & E & Hu).
        exists (95 :: used). split; [cbn [app]; f_equal; exact E |].
        constructor; [right; reflexivity | exact Hu].
      * destruct prev; [discriminate |].
        injection H as _ _ <-. exists []. split; [reflexivity | constructor].
Qed.

Lemma parse_digits_chars (negative : bool) (l : list N) (n : Z) :
  parse_digits env negative l = Some n ->
  Forall (fun c => literal_char c = true) l.
Proof.
  unfold parse_digits. intros H.
  destruct (match l with c :: _ => c =? 95 | [] => false end); [discriminate |].
  destruct (scan_digits l 0 0 false) as [[[v digits] rest]|] eqn:Hscan;
    [| discriminate].
  destruct (digits =? 0); [discriminate |].
  destruct ((0 <? max_str_digits env) && (max_str_digits env <? digits));
    [discriminate |].
  destruct (skip_spaces rest) eqn:Hrest; [| discriminate].
  destruct (scan_digits_split _ _ _ _ _ _ _ Hscan) as (used & -> & Hu).
  apply Forall_app. split.
  - eapply Forall_impl; [exact Hu |]. intros c [Hc | ->]; unfold literal_char.
    + rewrite Hc. reflexivity.
    + reflexivity.
  - eapply Forall_impl; [exact (skip_spaces_nil _ Hrest) |].
    intros c Hc. unfold literal_char. rewrite Hc. rewrite !orb_true_r.
    reflexivity.
Qed.

(** A text that [int] accepts holds nothing but digits, underscores,
    blanks and signs, once brought to ASCII. *)
Lemma int_of_str_chars (s : pystr) (n : Z) :
  int_of_str env s = Some n ->
  Forall (fun c => literal_char (to_ascii env c) = true) s.
Proof.
  unfold int_of_str. intros H.
  apply (proj1 (List.Forall_map (to_ascii env) (fun c => literal_char c = true) s)).
  destruct (skip_spaces_split (map (to_ascii env) s)) as (blanks & E & Hb).
  rewrite E. set (l := skip_spaces (map (to_ascii env) s)) in *. clearbody l.
  apply Forall_app. split.
  { eapply Forall_impl; [exact Hb |]. intros c Hc. unfold literal_char.
    rewrite Hc. rewrite !orb_true_r. reflexivity. }
  destruct l as [|c l']; [constructor |].
  destruct (N.eqb_spec c 43) as [-> | H43].
  { constructor; [reflexivity | exact (parse_digits_chars _ _ _ H)]. }
  destruct (N.eqb_spec c 45) as [-> | H45].
  { constructor; [reflexivity | exact (parse_digits_chars _ _ _ H)]. }
  exact (parse_digits_chars _ _ _ H).
Qed.

(** So a text with any other character is refused: letters, a dot, a
    hexadecimal prefix, and so on. *)
Lemma int_of_str_refuses (s : pystr) (c : N) :
  In c s -> literal_char (to_ascii env c) = false -> int_of_str env s = None.
Proof.
  intros Hin Hc. destruct (int_of_str env s) as [n|] eqn:H; [| reflexivity].
  pose proof (int_of_str_chars s n H) as Hall.
  rewrite Forall_forall in Hall.
  rewrite (Hall c) in Hc; [discriminate |].
  apply list_elem_of_In. exact Hin.
Qed.

End IntFacts.
End IntFacts.

(** ** The bytes of the body, and of the response on the connection *)

Module WireFacts.

Import Json Http.

Lemma ascii_text_app (a b : bytes) :
  ascii_text a -> ascii_text b -> ascii_text (a +:+ b).
Proof.
  unfold ascii_text. induction a as [|x a IH]; intros Ha Hb; [exact Hb |].
  cbn [append list_ascii_of_string] in *.
  constructor; [exact (Forall_inv Ha) | exact (IH (Forall_inv_tail Ha) Hb)].
Qed.

Lemma ascii_text_cons (x : ascii) (s : bytes) :
  (N_of_ascii x < 128)%N -> ascii_text s -> ascii_text (String x s).
Proof. intros Hx Hs. unfold ascii_text. cbn [list_ascii_of_string]. constructor; assumption. Qed.

Lemma hex_digit_ascii (d : N) : (d < 16)%N -> (N_of_ascii (hex_digit d) < 128)%N.
Proof.
  intros H. unfold hex_digit.
  destruct (N.ltb_spec d 10); rewrite N_ascii_embedding; lia.
Qed.

Lemma u_escape_ascii (n : N) : ascii_text (u_escape n).
Proof.
  unfold u_escape.
  repeat (apply ascii_text_cons;
          [first [reflexivity | apply hex_digit_ascii, StringFacts.mod16_lt] |]).
  constructor.
Qed.

Lemma ascii_text_literal (s : bytes) :
  forallb (fun x => N.ltb (N_of_ascii x) 128) (list_ascii_of_string s) = true ->
  ascii_text s.
Proof.
  unfold ascii_text. intros H. apply List.Forall_forall. intros x Hx.
  rewrite forallb_forall in H. apply N.ltb_lt. exact (H x Hx).
Qed.

Lemma escape_char_ascii (c : N) : ascii_text (escape_char c).
Proof.
  unfold escape_char.
  destruct (c =? 34)%N; [apply ascii_text_literal; reflexivity |].
  destruct (c =? 92)%N; [apply ascii_text_literal; reflexivity |].
  destruct (c =? 8)%N; [apply ascii_text_literal; reflexivity |].
  destruct (c =? 12)%N; [apply ascii_text_literal; reflexivity |].
  destruct (c =? 10)%N; [apply ascii_text_literal; reflexivity |].
  destruct (c =? 13)%N; [apply ascii_text_literal; reflexivity |].
  destruct (c =? 9)%N; [apply ascii_text_literal; reflexivity |].
  destruct ((32 <=? c) && (c <=? 126))%N eqn:Hprint.
  { apply andb_true_iff in Hprint. destruct Hprint as [_ Hu]. apply N.leb_le in Hu.
    apply ascii_text_cons; [| constructor].
    rewrite N_ascii_embedding; lia. }
  destruct (c <? 65536)%N; [apply u_escape_ascii |].
  cbv zeta. apply ascii_text_app; apply u_escape_ascii.
Qed.

Lemma escape_chars_ascii (s : pystr) : ascii_text (escape_chars s).
Proof.
  induction s as [|c s IH]; [constructor |].
  cbn [escape_chars]. apply ascii_text_app; [apply escape_char_ascii | exact IH].
Qed.

(** The text of the handler's dictionary has ASCII characters only, so
    that [.encode()] gives it byte for byte. *)
Lemma payload_ascii (rep : float -> string) (label : pystr) :
  ascii_text (dumps rep [(py "score", VFloat (Score.score_of_label label));
                         (py "label", VStr label)]).
Proof.
  rewrite PayloadFacts.dumps_shape, PayloadFacts.floatstr_score.
  assert (ascii_text (if decide (label = py "left") then "-1.0"
                      else if decide (label = py "right") then "1.0" else "0.0"))
    as Hlit by (repeat case_decide; apply ascii_text_literal; reflexivity).
  assert (ascii_text (escape_chars label +:+ String dquote "}")) as Hlabel.
  { apply ascii_text_app; [apply escape_chars_ascii |].
    apply ascii_text_literal; reflexivity. }
  set (lit := if decide (label = py "left") then _ else _) in *. clearbody lit.
  set (rest := escape_chars label +:+ _) in *. clearbody rest.
  cbn [append].
  repeat (apply ascii_text_cons; [reflexivity |]).
  apply ascii_text_app; [exact Hlit |].
  repeat (apply ascii_text_cons; [reflexivity |]).
  exact Hlabel.
Qed.

(** What goes on the connection for the calls of [do_POST], when the
    request line named a version other than [HTTP/0.9]: the status
    line, the [Server] and [Date] headers of the library, the handler's
    header, an empty line and the body. *)
Lemma wire_of_post (env : Env) (version date : string) (score label : pyval) :
  String.eqb version "HTTP/0.9" = false ->
  transmit env version date EmptyString (post_calls env score label)
  = "HTTP/1.0 200 OK" +:+ crlf
    +:+ "Server: " +:+ version_string env +:+ crlf
    +:+ "Date: " +:+ date +:+ crlf
    +:+ "Content-type: application/json" +:+ crlf
    +:+ crlf
    +:+ dumps (float_shortest_repr env) [(py "score", score); (py "label", label)].
Proof.
  intros H. unfold post_calls. cbn [transmit]. rewrite H. cbn [negb].
  change (status_line 200 None) with ("HTTP/1.0 200 OK" +:+ crlf).
  unfold header_line, crlf.
  repeat (progress (rewrite ?append_assoc; cbn [append])).
  rewrite append_nil_r. reflexivity.
Qed.

(** For a request line that names [HTTP/0.9] the library leaves the
    status line and the headers out: the body goes out alone. *)
Lemma wire_of_post_simple (env : Env) (date : string) (score label : pyval) :
  transmit env "HTTP/0.9" date EmptyString (post_calls env score label)
  = dumps (float_shortest_repr env) [(py "score", score); (py "label", label)].
Proof.
  unfold post_calls. cbn [transmit].
  change (String.eqb "HTTP/0.9" "HTTP/0.9") with true. cbn [negb].
  apply append_nil_r.
Qed.

End WireFacts.

(** ** What a command line can give as a label *)

Module ArgvFacts.

Import Json JsonRead Text Argv.

Local Open Scope N_scope.

Lemma not_high (c : N) : c < 0xd800 \/ 0xdbff < c -> is_high_surrogate c = false.
Proof.
  intros H. unfold is_high_surrogate. apply andb_false_iff.
  destruct H as [H | H]; [left; apply N.leb_gt | right; apply N.leb_gt]; exact H.
Qed.

Lemma byte_bound (a : ascii) : N_of_ascii a < 256.
Proof. apply N_ascii_bounded. Qed.

(** The tests of the decoder, as inequalities. *)
Ltac bounds :=
  match goal with
  | H : negb _ = true |- _ => apply negb_true_iff in H
  | H : _ && _ = true |- _ => apply andb_true_iff in H; destruct H
  | H : _ && _ = false |- _ => apply andb_false_iff in H; destruct H
  | H : (_ <? _) = true |- _ => apply N.ltb_lt in H
  | H : (_ <=? _) = true |- _ => apply N.leb_le in H
  | H : (_ <=? _) = false |- _ => apply N.leb_gt in H
  | H : (_ <? _) = false |- _ => apply N.ltb_ge in H
  | H : (_ =? _) = false |- _ => apply N.eqb_neq in H
  end.

(** Every code point of a decoded argument is below [110000] and
    outside [D800..DBFF]. *)
Lemma fsdecode_chars (s : bytes) :
  Forall (fun c => c < 0x110000 /\ is_high_surrogate c = false) (fsdecode s).
Proof.
  assert (forall n s, (String.length s <= n)%nat ->
            Forall (fun c => c < 0x110000 /\ is_high_surrogate c = false)
                   (fsdecode s)) as H.
  { clear s. induction n as [|n IH]; intros s Hlen.
    - destruct s; [constructor | cbn [String.length] in Hlen; lia].
    - destruct s as [|a s1]; [constructor |].
      cbn [String.length] in Hlen.
      assert (Forall (fun c => c < 0x110000 /\ is_high_surrogate c = false)
                     (fsdecode s1)) as H1 by (apply IH; lia).
      cbn [fsdecode].
      pose proof (byte_bound a) as Ha.
      set (b := N_of_ascii a) in *. clearbody b.
      assert (Forall (fun c => c < 0x110000 /\ is_high_surrogate c = false)
                     ((0xdc00 + b) :: fsdecode s1)) as Hesc.
      { constructor; [| exact H1]. split; [lia | apply not_high; lia]. }
      cbv zeta.
      destruct (N.ltb_spec b 0x80) as [H80 | H80].
      { constructor; [| exact H1]. split; [lia | apply not_high; lia]. }
      destruct (N.ltb_spec b 0xc2) as [Hc2 | Hc2]; [exact Hesc |].
      destruct (N.ltb_spec b 0xe0) as [He0 | He0].
      { destruct s1 as [|a1 s2]; [exact Hesc |].
        pose proof (byte_bound a1) as Ha1.
        set (c1 := N_of_ascii a1) in *. clearbody c1.
        destruct (continuation c1) eqn:Hc1; [| exact Hesc].
        cbn [String.length] in Hlen.
        constructor; [| apply IH; lia].
        unfold continuation in Hc1.
        apply andb_true_iff in Hc1. destruct Hc1 as [L1 U1].
        apply N.leb_le in L1, U1.
        split; [lia | apply not_high; lia]. }
      destruct (N.ltb_spec b 0xf0) as [Hf0 | Hf0].
      { destruct s1 as [|a1 [|a2 s3]]; try exact Hesc.
        pose proof (byte_bound a1) as Ha1. pose proof (byte_bound a2) as Ha2.
        set (c1 := N_of_ascii a1) in *. set (c2 := N_of_ascii a2) in *.
        clearbody c1 c2.
        destruct (continuation c1 && continuation c2
                  && negb ((b =? 0xe0) && (c1 <? 0xa0))
                  && negb ((b =? 0xed) && (0xa0 <=? c1))) eqn:Hok; [| exact Hesc].
        cbn [String.length] in Hlen.
        constructor; [| apply IH; lia].
        unfold continuation in Hok.
        repeat (apply andb_true_iff in Hok; destruct Hok as [Hok ?]).
        repeat bounds; (split; [lia | apply not_high; lia]). }
      destruct (N.ltb_spec b 0xf5) as [Hf5 | Hf5]; [| exact Hesc].
      destruct s1 as [|a1 [|a2 [|a3 s4]]]; try exact Hesc.
      pose proof (byte_bound a1) as Ha1. pose proof (byte_bound a2) as Ha2.
      pose proof (byte_bound a3) as Ha3.
      set (c1 := N_of_ascii a1) in *. set (c2 := N_of_ascii a2) in *.
      set (c3 := N_of_ascii a3) in *. clearbody c1 c2 c3.
      destruct (continuation c1 && continuation c2 && continuation c3
                && negb ((b =? 0xf0) && (c1 <? 0x90))
                && negb ((b =? 0xf4) && (0x90 <=? c1))) eqn:Hok; [| exact Hesc].
      cbn [String.length] in Hlen.
      constructor; [| apply IH; lia].
      unfold continuation in Hok.
      repeat (apply andb_true_iff in Hok; destruct Hok as [Hok ?]).
      repeat bounds; (split; [lia | apply not_high; lia]). }
  apply (H (String.length s)). lia.
Qed.

Lemma fsdecode_code_points (s : bytes) : code_points (fsdecode s).
Proof.
  unfold code_points. eapply Forall_impl; [apply fsdecode_chars |].
  cbv beta. intros c [H _]. exact H.
Qed.

(** A text without a code point in [D800..DBFF] has no split pair. *)
Lemma no_high_no_split (l : pystr) :
  Forall (fun c => is_high_surrogate c = false) l -> no_split_pair l = true.
Proof.
  induction 1 as [|c l Hc Hl IH]; [reflexivity |].
  destruct l as [|d l]; [reflexivity |].
  cbn [no_split_pair] in *. rewrite Hc, IH. reflexivity.
Qed.

Lemma fsdecode_no_split_pair (s : bytes) : no_split_pair (fsdecode s) = true.
Proof.
  apply no_high_no_split. eapply Forall_impl; [apply fsdecode_chars |].
  cbv beta. intros c [_ H]. exact H.
Qed.

(** A plain character is written as it is. *)
Lemma escape_chars_plain (l : pystr) :
  forallb plain l = true -> escape_chars l = bytes_of l.
Proof.
  induction l as [|c l IH]; [reflexivity |].
  cbn [forallb]. intros H. apply andb_true_iff in H. destruct H as [Hc Hl].
  unfold bytes_of in *. cbn [escape_chars map string_of_list_ascii].
  rewrite (IH Hl). unfold plain in Hc.
  repeat (apply andb_true_iff in Hc; destruct Hc as [Hc ?]).
  repeat match goal with
         | H : negb _ = true |- _ => apply negb_true_iff in H
         end.
  unfold escape_char.
  repeat match goal with
         | H : (c =? _) = false |- _ => rewrite H
         end.
  apply N.leb_le in Hc.
  match goal with H : (c <=? 126) = true |- _ => apply N.leb_le in H end.
  repeat match goal with
         | |- context [N.eqb c ?k] =>
             replace (N.eqb c k) with false by (symmetry; apply N.eqb_neq; lia)
         end.
  replace ((32 <=? c) && (c <=? 126)) with true
    by (symmetry; apply andb_true_iff; split; apply N.leb_le; lia).
  reflexivity.
Qed.

End ArgvFacts.

(** * The claims *)

(** C1. The score is the fixed lookup: [left] gives -1.0, [center] 0.0,
    [right] 1.0 and every other label 0.0. *)
Theorem C1_score_lookup :
  Score.score_of_label (py "left") = (-1.0)%float /\
  Score.score_of_label (py "center") = 0.0%float /\
  Score.score_of_label (py "right") = 1.0%float /\
  (forall label : pystr,
      label <> py "left" -> label <> py "center" -> label <> py "right" ->
      Score.score_of_label label = 0.0%float).
Proof.
  repeat split; try reflexivity.
  intros label Hl Hc Hr. unfold Score.score_of_label.
  repeat case_decide; congruence.
Qed.

Lemma C1_score_lookup_witness :
  Score.score_of_label (py "foo") = 0.0%float.
Proof.
  apply (proj2 (proj2 (proj2 C1_score_lookup))); discriminate.
Defined.





(** The handler's dictionary, written out: the text
    [{"score": <score>, "label": "<label>"}]. *)
Lemma dumps_text (rep : float -> string) (score label : pyval) :
  Json.dumps rep [(py "score", score); (py "label", label)]
  = "{" +:+ Json.encode_basestring_ascii (py "score") +:+ ": "
    +:+ Json.dumps_value rep score +:+ ", "
    +:+ Json.encode_basestring_ascii (py "label") +:+ ": "
    +:+ Json.dumps_value rep label +:+ "}".
Proof.
  unfold Json.dumps, Json.dumps_items.
  repeat (progress (rewrite ?append_assoc; cbn [append])). reflexivity.
Qed.

(** C2. For every POST request to a running instance, the handler
    returns status 200, the header Content-Type: application/json (header
    names compare without regard to case; the handler writes
    [Content-type]) and, as body, the JSON object
    [{"score": <score>, "label": "<label>"}] made of the label given at
    startup and its score.  The body is [json.dumps] of the two values;
    for a label of plain characters it is this text letter for letter,
    with the number [-1.0], [0.0] or [1.0]; and for every label a JSON
    reader finds in it the object with the members [score] and [label],
    the number and the label. *)
Theorem C2_post_response (env : Env) (argv : list pystr)
    (p : Process.process) (r : Http.request) :
  Process.python env argv = (Process.Serving, p) ->
  Http.command r = "POST"%string ->
  exists (label : pystr) (calls : list Http.call) (resp : Http.response),
    argv !! 1%nat = Some label
    /\ Http.handle env p r = Some (Py.Return tt, calls, p)
    /\ Http.response_of calls = Some resp
    /\ Http.status resp = 200
    /\ Http.get_header "Content-Type" (Http.fields resp) = Some "application/json"%string
    /\ Http.body resp
       = Json.dumps (float_shortest_repr env)
           [(py "score", VFloat (Score.score_of_label label)); (py "label", VStr label)]
    /\ (forallb Text.plain label = true ->
        Http.body resp
        = String "{" (String dquote ("score" +:+ String dquote (": " +:+
            (if decide (label = py "left") then "-1.0"
             else if decide (label = py "right") then "1.0" else "0.0")
            +:+ ", " +:+ String dquote ("label" +:+ String dquote (": " +:+
            String dquote (Text.bytes_of label +:+ String dquote "}")))))))
    /\ (Text.code_points label -> Text.no_split_pair label = true ->
        JsonRead.loads (Http.body resp)
        = Some (JsonRead.JObject
                  [(py "score",
                    JsonRead.JNumber
                      (if decide (label = py "left") then "-1.0"
                       else if decide (label = py "right") then "1.0" else "0.0"));
                   (py "label", JsonRead.JString label)])).
Proof.
  intros Hrun Hcmd.
  destruct (ProcessFacts.python_serving env argv p Hrun)
    as (prog & label & port_text & port & -> & _ & _ & ->).
  exists label.
  eexists. eexists.
  split; [reflexivity |].
  split; [apply HttpFacts.started_POST; exact Hcmd |].
  split; [apply HttpFacts.response_of_post_calls |].
  split; [reflexivity |].
  split; [reflexivity |].
  split; [reflexivity |].
  cbn [Http.body]. split.
  - intros Hplain.
    rewrite PayloadFacts.dumps_shape, PayloadFacts.floatstr_score.
    rewrite (ArgvFacts.escape_chars_plain label Hplain). reflexivity.
  - intros Hcp Hns.
    rewrite (PayloadFacts.loads_payload _ label Hcp Hns).
    rewrite PayloadFacts.floatstr_score. reflexivity.
Qed.

Lemma C2_post_response_witness :
  Process.python sample_env sample_argv = (Process.Serving, sample_process)
  /\ Http.command (sample_request "POST") = "POST"%string
  /\ exists calls resp,
       Http.handle sample_env sample_process (sample_request "POST")
       = Some (Py.Return tt, calls, sample_process)
       /\ Http.response_of calls = Some resp
       /\ Http.status resp = 200
       /\ Http.body resp
          = ("{" +:+ String dquote "score" +:+ String dquote ": -1.0, "
             +:+ String dquote "label" +:+ String dquote ": "
             +:+ String dquote "left" +:+ String dquote "}")%string.
Proof.
  assert (Process.python sample_env sample_argv = (Process.Serving, sample_process))
    as Hrun by (vm_compute; reflexivity).
  split; [exact Hrun |]. split; [reflexivity |].
  destruct (C2_post_response sample_env sample_argv sample_process
              (sample_request "POST") Hrun eq_refl)
    as (label & calls & resp & Hlabel & Hh & Hr & Hs & _ & _ & Hplain & _).
  injection Hlabel as <-.
  exists calls, resp.
  split; [exact Hh |]. split; [exact Hr |]. split; [exact Hs |].
  rewrite (Hplain eq_refl). vm_compute. reflexivity.
Defined.

(** C3. The response does not depend on the request: two POST requests
    to the same running instance, whatever their paths, headers and
    bodies, are answered by the same calls, with status 200 and the same
    JSON body. *)
Theorem C3_response_independent_of_request (env : Env) (argv : list pystr)
    (p : Process.process) (r1 r2 : Http.request) :
  Process.python env argv = (Process.Serving, p) ->
  Http.command r1 = "POST"%string ->
  Http.command r2 = "POST"%string ->
  exists (label : pystr) (calls : list Http.call) (resp : Http.response),
    argv !! 1%nat = Some label
    /\ Http.handle env p r1 = Http.handle env p r2
    /\ Http.serve env p [r1; r2] = ([calls; calls], p)
    /\ Http.response_of calls = Some resp
    /\ Http.status resp = 200
    /\ Http.body resp
       = Json.dumps (float_shortest_repr env)
           [(py "score", VFloat (Score.score_of_label label)); (py "label", VStr label)].
Proof.
  intros Hrun H1 H2.
  destruct (ProcessFacts.python_serving env argv p Hrun)
    as (prog & label & port_text & port & -> & _ & _ & ->).
  pose proof (HttpFacts.started_POST env label port r1 H1) as E1.
  pose proof (HttpFacts.started_POST env label port r2 H2) as E2.
  exists label. eexists. eexists.
  split; [reflexivity |].
  split; [rewrite E1, E2; reflexivity |].
  split; [cbn [Http.serve]; rewrite E1, E2; reflexivity |].
  split; [apply HttpFacts.response_of_post_calls |].
  split; reflexivity.
Qed.

Lemma C3_response_independent_of_request_witness :
  Process.python sample_env sample_argv = (Process.Serving, sample_process)
  /\ Http.handle sample_env sample_process (sample_request "POST")
     = Http.handle sample_env sample_process
         {| Http.command := "POST"; Http.path := "/other?x=1";
            Http.request_version := "HTTP/1.0";
            Http.headers := [("Content-Type", "text/plain")];
            Http.rfile := "not json" |}.
Proof.
  assert (Process.python sample_env sample_argv = (Process.Serving, sample_process))
    as Hrun by (vm_compute; reflexivity).
  split; [exact Hrun |].
  destruct (C3_response_independent_of_request sample_env sample_argv sample_process
              (sample_request "POST")
              {| Http.command := "POST"; Http.path := "/other?x=1";
                 Http.request_version := "HTTP/1.0";
                 Http.headers := [("Content-Type", "text/plain")];
                 Http.rfile := "not json" |}
              Hrun eq_refl eq_refl)
    as (label & calls & resp & _ & Hsame & _).
  exact Hsame.
Defined.



(** C5. Two consecutive POST requests to one running instance get the
    same body, byte for byte: the body is [json.dumps] of the score and
    the label that the server object holds, and of nothing else. *)
Theorem C5_consecutive_bodies_identical (env : Env) (p : Process.process)
    (srv : nat) (score label : pyval) (r1 r2 : Http.request) :
  Process.serving p = Some srv ->
  Process.getattr srv "score" p = (Py.Return score, p) ->
  Process.getattr srv "label" p = (Py.Return label, p) ->
  Http.command r1 = "POST"%string ->
  Http.command r2 = "POST"%string ->
  exists (c1 c2 : list Http.call) (resp1 resp2 : Http.response),
    Http.serve env p [r1; r2] = ([c1; c2], p)
    /\ Http.response_of c1 = Some resp1
    /\ Http.response_of c2 = Some resp2
    /\ Http.body resp1 = Http.body resp2
    /\ Http.body resp1
       = Json.dumps (float_shortest_repr env) [(py "score", score); (py "label", label)].
Proof.
  intros Hsrv Hs Hl H1 H2.
  pose proof (HttpFacts.handle_POST env p srv r1 score label Hsrv H1 Hs Hl) as E1.
  pose proof (HttpFacts.handle_POST env p srv r2 score label Hsrv H2 Hs Hl) as E2.
  do 4 eexists.
  split; [cbn [Http.serve]; rewrite E1, E2; reflexivity |].
  split; [apply HttpFacts.response_of_post_calls |].
  split; [apply HttpFacts.response_of_post_calls |].
  split; reflexivity.
Qed.

Lemma C5_consecutive_bodies_identical_witness :
  Process.serving sample_process = Some 0%nat
  /\ exists c1 c2,
       Http.serve sample_env sample_process
         [sample_request "POST"; sample_request "POST"]
       = ([c1; c2], sample_process).
Proof.
  split; [reflexivity |].
  assert (sample_process = Process.started sample_env (py "left") 8080) as E
    by (vm_compute; reflexivity).
  destruct (C5_consecutive_bodies_identical sample_env sample_process 0%nat
              (VFloat (Score.score_of_label (py "left"))) (VStr (py "left"))
              (sample_request "POST") (sample_request "POST")
              eq_refl
              (eq_ind_r (fun q => Process.getattr 0 "score" q = (_, q))
                 (ProcessFacts.started_score sample_env (py "left") 8080) E)
              (eq_ind_r (fun q => Process.getattr 0 "label" q = (_, q))
                 (ProcessFacts.started_label sample_env (py "left") 8080) E)
              eq_refl eq_refl)
    as (c1 & c2 & resp1 & resp2 & Hserve & _).
  exists c1, c2. exact Hserve.
Defined.

(** C6. The label and the score are assigned once each, at startup, and
    not afterwards: in a running instance the assignments made are
    exactly these two, and handling any sequence of requests leaves the
    whole process, hence both values, as it was. *)
Theorem C6_label_and_score_fixed (env : Env) (argv : list pystr)
    (p : Process.process) (rs : list Http.request) :
  Process.python env argv = (Process.Serving, p) ->
  exists (srv : nat) (label : pystr),
    argv !! 1%nat = Some label
    /\ Process.serving p = Some srv
    /\ Process.assigned p = [(srv, "label"%string); (srv, "score"%string)]
    /\ Process.getattr srv "label" p = (Py.Return (VStr label), p)
    /\ Process.getattr srv "score" p
       = (Py.Return (VFloat (Score.score_of_label label)), p)
    /\ snd (Http.serve env p rs) = p.
Proof.
  intros Hrun.
  destruct (ProcessFacts.python_serving env argv p Hrun)
    as (prog & label & port_text & port & -> & _ & _ & ->).
  exists 0%nat, label.
  split; [reflexivity |].
  split; [reflexivity |].
  split; [reflexivity |].
  split; [apply ProcessFacts.started_label |].
  split; [apply ProcessFacts.started_score |].
  apply HttpFacts.serve_process.
Qed.

Lemma C6_label_and_score_fixed_witness :
  Process.python sample_env sample_argv = (Process.Serving, sample_process)
  /\ snd (Http.serve sample_env sample_process
            [sample_request "POST"; sample_request "GET"; sample_request "POST"])
     = sample_process.
Proof.
  assert (Process.python sample_env sample_argv = (Process.Serving, sample_process))
    as Hrun by (vm_compute; reflexivity).
  split; [exact Hrun |].
  destruct (C6_label_and_score_fixed sample_env sample_argv sample_process
              [sample_request "POST"; sample_request "GET"; sample_request "POST"]
              Hrun)
    as (srv & label & _ & _ & _ & _ & _ & Hsame).
  exact Hsame.
Defined.

(** C7. When the port cannot be bound, [run] raises the error of the
    bind and does nothing else; the program ends with that error
    uncaught (a traceback, status 1), with no socket listening, nothing
    printed, and no request served. *)
Theorem C7_bind_failure_propagates (env : Env) (label : pystr) (port : Z)
    (e : Py.exn) :
  Process.bind_failure env port = Some e ->
  (forall p, Process.run env label port p = (Py.Raise e, p))
  /\ (forall prog port_text,
        Int.int_of_str env port_text = Some port ->
        Process.python env [prog; label; port_text]
        = (Process.Exited 1 (Some e), Process.initial))
  /\ (forall r, Http.handle env Process.initial r = None).
Proof.
  intros Hb. split; [| split].
  - intros p. apply ProcessFacts.run_raises. exact Hb.
  - intros prog port_text Hint.
    rewrite ProcessFacts.python_three, Hint, Hb. reflexivity.
  - intros r. reflexivity.
Qed.

Lemma C7_bind_failure_propagates_witness :
  Process.bind_failure sample_env 80 = Some (Py.OSError 13)
  /\ Process.python sample_env [py "mock_llm_service.py"; py "left"; py "80"]
     = (Process.Exited 1 (Some (Py.OSError 13)), Process.initial).
Proof.
  split; [reflexivity |].
  apply (C7_bind_failure_propagates sample_env (py "left") 80 (Py.OSError 13));
    reflexivity.
Defined.

(** C8. With the right number of arguments and a port argument that
    [int] does not accept, the program ends with [ValueError] uncaught
    (a traceback, status 1) before any socket is bound.  It is neither of
    the two failures the specification names: no usage message is
    printed, and [ValueError] is not an error of the bind. *)
Theorem C8_bad_port_value_error (env : Env) (prog label port_text : pystr) :
  Int.int_of_str env port_text = None ->
  Process.python env [prog; label; port_text]
  = (Process.Exited 1 (Some Py.ValueError), Process.initial)
  /\ Process.stdout Process.initial = []
  /\ Process.listening Process.initial = []
  /\ (forall port, Process.bind_failure env port <> Some Py.ValueError).
Proof.
  intros Hint. split; [| split; [| split]]; try reflexivity.
  - rewrite ProcessFacts.python_three, Hint. reflexivity.
  - intros port Hb.
    destruct (ProcessFacts.bind_failure_not_exit env port _ Hb) as [E | [errno E]];
      discriminate.
Qed.

Lemma C8_bad_port_value_error_witness :
  Int.int_of_str sample_env (py "http") = None
  /\ Process.python sample_env [py "mock_llm_service.py"; py "left"; py "http"]
     = (Process.Exited 1 (Some Py.ValueError), Process.initial).
Proof.
  split; [reflexivity |].
  apply (C8_bad_port_value_error sample_env). reflexivity.
Defined.

(** C9. The class has [do_POST] only: a request with any other method
    is not given to it; the base class answers with error 501, reason
    [Unsupported method (<method>)], the connection closed and the
    library's error page as body (no body for HEAD), so the 200 response
    with the JSON body is not sent. *)
Theorem C9_other_methods_501 (env : Env) (p : Process.process) (srv : nat)
    (r : Http.request) :
  Process.serving p = Some srv ->
  Http.command r <> "POST"%string ->
  exists (calls : list Http.call) (resp : Http.response),
    Http.handle env p r = Some (Py.Return tt, calls, p)
    /\ Http.response_of calls = Some resp
    /\ Http.status resp = 501
    /\ Http.reason resp
       = Some ("Unsupported method (" +:+ str_repr env (Http.command r) +:+ ")")
    /\ Http.get_header "Connection" (Http.fields resp) = Some "close"%string
    /\ Http.get_header "Content-Type" (Http.fields resp)
       = Some "text/html;charset=utf-8"%string
    /\ Http.body resp
       = (if String.eqb (Http.command r) "HEAD" then EmptyString
          else error_document env 501
                 ("Unsupported method (" +:+ str_repr env (Http.command r) +:+ ")")
                 "Server does not support this operation").
Proof.
  intros Hsrv Hcmd.
  exists (Http.error_calls env r).
  pose proof (HttpFacts.handle_other env p srv r Hsrv Hcmd) as Hh.
  unfold Http.error_calls in *. cbv zeta in *.
  set (message := "Unsupported method (" +:+ str_repr env (Http.command r) +:+ ")") in *.
  set (document := error_document env 501 message _) in *.
  destruct (String.eqb (Http.command r) "HEAD") eqn:Hhead; cbn [negb andb app] in *.
  - eexists. repeat split; try exact Hh; reflexivity.
  - destruct (String.eqb_spec document EmptyString) as [Hdoc | Hdoc]; cbn [negb] in *.
    + eexists. repeat split; try exact Hh; try reflexivity.
      cbn [Http.body]. symmetry. exact Hdoc.
    + eexists. repeat split; try exact Hh; try reflexivity.
      cbn [Http.body]. apply append_nil_r.
Qed.

Lemma C9_other_methods_501_witness :
  Process.serving sample_process = Some 0%nat
  /\ Http.command (sample_request "GET") <> "POST"%string
  /\ exists calls resp,
       Http.handle sample_env sample_process (sample_request "GET")
       = Some (Py.Return tt, calls, sample_process)
       /\ Http.response_of calls = Some resp
       /\ Http.status resp = 501.
Proof.
  assert (Http.command (sample_request "GET") <> "POST"%string) as Hcmd
    by discriminate.
  split; [reflexivity |]. split; [exact Hcmd |].
  destruct (C9_other_methods_501 sample_env sample_process 0%nat
              (sample_request "GET") eq_refl Hcmd)
    as (calls & resp & Hh & Hr & Hs & _).
  exists calls, resp. auto.
Defined.

(** C10. For every label the program can be given, whatever quotes,
    backslashes, control or non-ASCII characters it has, the response
    body is valid JSON: an object whose members are, in this order,
    [score] with the number written for the score and [label] with a
    string that decodes to exactly the label.

    First for every label that holds no code point in [D800..DBFF]
    directly followed by one in [DC00..DFFF]; then for every command
    line: what the interpreter makes of an argument's bytes is such a
    label, so nothing is asked of the label there. *)
Theorem C10_label_round_trip (env : Env) :
  (forall (prog label port_text : pystr) (p : Process.process) (r : Http.request),
      Process.python env [prog; label; port_text] = (Process.Serving, p) ->
      Http.command r = "POST"%string ->
      Text.code_points label ->
      Text.no_split_pair label = true ->
      exists (calls : list Http.call) (resp : Http.response),
        Http.handle env p r = Some (Py.Return tt, calls, p)
        /\ Http.response_of calls = Some resp
        /\ JsonRead.loads (Http.body resp)
           = Some (JsonRead.JObject
                     [(py "score",
                       JsonRead.JNumber
                         (Json.floatstr (float_shortest_repr env)
                            (Score.score_of_label label)));
                      (py "label", JsonRead.JString label)]))
  /\ (forall (args : list bytes) (label : pystr) (p : Process.process)
             (r : Http.request),
        Process.python env (map Argv.fsdecode args) = (Process.Serving, p) ->
        map Argv.fsdecode args !! 1%nat = Some label ->
        Http.command r = "POST"%string ->
        exists (calls : list Http.call) (resp : Http.response),
          Http.handle env p r = Some (Py.Return tt, calls, p)
          /\ Http.response_of calls = Some resp
          /\ JsonRead.loads (Http.body resp)
             = Some (JsonRead.JObject
                       [(py "score",
                         JsonRead.JNumber
                           (Json.floatstr (float_shortest_repr env)
                              (Score.score_of_label label)));
                        (py "label", JsonRead.JString label)])).
Proof.
  assert (forall (prog label port_text : pystr) (p : Process.process)
                 (r : Http.request),
             Process.python env [prog; label; port_text] = (Process.Serving, p) ->
             Http.command r = "POST"%string ->
             Text.code_points label ->
             Text.no_split_pair label = true ->
             exists (calls : list Http.call) (resp : Http.response),
               Http.handle env p r = Some (Py.Return tt, calls, p)
               /\ Http.response_of calls = Some resp
               /\ JsonRead.loads (Http.body resp)
                  = Some (JsonRead.JObject
                            [(py "score",
                              JsonRead.JNumber
                                (Json.floatstr (float_shortest_repr env)
                                   (Score.score_of_label label)));
                             (py "label", JsonRead.JString label)])) as Hany.
  { intros prog label port_text p r Hrun Hcmd Hcp Hns.
    destruct (ProcessFacts.python_serving env _ p Hrun)
      as (prog' & label' & port_text' & port & Hargv & _ & _ & ->).
    injection Hargv as _ <- _.
    exists (Http.post_calls env (VFloat (Score.score_of_label label)) (VStr label)).
    eexists.
    split; [apply HttpFacts.started_POST; exact Hcmd |].
    split; [apply HttpFacts.response_of_post_calls |].
    cbn [Http.body]. apply PayloadFacts.loads_payload; assumption. }
  split; [exact Hany |].
  intros args label p r Hrun Hlabel Hcmd.
  destruct (ProcessFacts.python_serving env _ p Hrun)
    as (prog & label' & port_text & port & Hargv & _ & _ & Hp).
  rewrite Hargv in Hrun, Hlabel. injection Hlabel as ->.
  assert (exists arg, label = Argv.fsdecode arg) as [arg ->].
  { destruct args as [|a0 [|a1 args]]; try discriminate.
    cbn [map] in Hargv. injection Hargv as _ <- _. exists a1. reflexivity. }
  apply (Hany prog _ port_text p r Hrun Hcmd).
  - apply ArgvFacts.fsdecode_code_points.
  - apply ArgvFacts.fsdecode_no_split_pair.
Qed.

(** The command line [mock_llm_service.py <label> 8080] whose label is
    the UTF-8 text of [a], a quote, [b], a backslash, a line feed,
    [e] with an acute accent and the code point [1F600]. *)
Lemma C10_label_round_trip_witness :
  exists calls resp,
    Process.python sample_env
      (map Argv.fsdecode
         ["mock_llm_service.py"%string;
          Argv.arg [97; 34; 98; 92; 10; 195; 169; 240; 159; 152; 128]%N;
          "8080"%string])
    = (Process.Serving, Process.started sample_env [97; 34; 98; 92; 10; 233; 0x1f600]%N 8080)
    /\ Http.handle sample_env
         (Process.started sample_env [97; 34; 98; 92; 10; 233; 0x1f600]%N 8080)
         (sample_request "POST")
       = Some (Py.Return tt, calls,
               Process.started sample_env [97; 34; 98; 92; 10; 233; 0x1f600]%N 8080)
    /\ Http.response_of calls = Some resp
    /\ JsonRead.loads (Http.body resp)
       = Some (JsonRead.JObject
                 [(py "score", JsonRead.JNumber "0.0");
                  (py "label",
                   JsonRead.JString [97; 34; 98; 92; 10; 233; 0x1f600]%N)]).
Proof.
  assert (Process.python sample_env
            (map Argv.fsdecode
               ["mock_llm_service.py"%string;
                Argv.arg [97; 34; 98; 92; 10; 195; 169; 240; 159; 152; 128]%N;
                "8080"%string])
          = (Process.Serving,
             Process.started sample_env [97; 34; 98; 92; 10; 233; 0x1f600]%N 8080))
    as Hrun by (vm_compute; reflexivity).
  destruct (proj2 (C10_label_round_trip sample_env)
              ["mock_llm_service.py"%string;
               Argv.arg [97; 34; 98; 92; 10; 195; 169; 240; 159; 152; 128]%N;
               "8080"%string]
              [97; 34; 98; 92; 10; 233; 0x1f600]%N
              (Process.started sample_env [97; 34; 98; 92; 10; 233; 0x1f600]%N 8080)
              (sample_request "POST") Hrun eq_refl eq_refl)
    as (calls & resp & Hh & Hr & Hl).
  exists calls, resp. auto.
Defined.

(** * Further properties *)

(** ** [int] on the text of an integer *)

Module DigitFacts.

Import Int More.

Section DigitFacts.

Context (env : Env).

Local Open Scope N_scope.

Lemma is_digit_plain (c : N) :
  is_digit c = true ->
  c < 128 /\ is_space c = false /\ (c =? 43) = false /\ (c =? 45) = false
  /\ (c =? 95) = false.
Proof.
  unfold is_digit, is_space. intros H. apply andb_true_iff in H.
  destruct H as [H1 H2]. apply N.leb_le in H1, H2.
  repeat split; try lia.
  - apply orb_false_iff. split; [apply N.eqb_neq; lia |].
    apply andb_false_iff. right. apply N.leb_gt. lia.
  - apply N.eqb_neq; lia.
  - apply N.eqb_neq; lia.
  - apply N.eqb_neq; lia.
Qed.

(** The characters of a run of digits are digits. *)
Lemma uint_chars_digits (d : Decimal.uint) :
  Forall (fun c => is_digit c = true) (py (NilEmpty.string_of_uint d)).
Proof. induction d; constructor; first [reflexivity | assumption]. Qed.

Lemma uint_chars_length (d : Decimal.uint) :
  length (py (NilEmpty.string_of_uint d)) = Decimal.nb_digits d.
Proof.
  induction d; cbn [NilEmpty.string_of_uint Decimal.nb_digits];
    try reflexivity;
    change (py (String ?a ?s)) with (N_of_ascii a :: py s);
    cbn [length]; f_equal; assumption.
Qed.

Lemma to_ascii_digits (l : list N) :
  Forall (fun c => is_digit c = true) l -> map (to_ascii env) l = l.
Proof.
  induction 1 as [|c l Hc _ IH]; [reflexivity |].
  cbn [map]. rewrite IH. f_equal. unfold to_ascii.
  destruct (is_digit_plain c Hc) as (Hlt & _).
  apply N.ltb_lt in Hlt. rewrite Hlt. reflexivity.
Qed.

(** The digit loop on a run of digits reads its value and counts its
    digits. *)
Lemma scan_uint (d : Decimal.uint) :
  forall acc count,
    scan_digits (py (NilEmpty.string_of_uint d)) acc count false
    = Some (digits_value d acc, count + N.of_nat (Decimal.nb_digits d), []).
Proof.
  induction d; intros acc count;
    try (cbn; rewrite N.add_0_r; reflexivity);
    cbn [NilEmpty.string_of_uint Decimal.nb_digits digits_value];
    change (py (String ?a ?s)) with (N_of_ascii a :: py s);
    cbn [scan_digits];
    match goal with
    | |- context [is_digit ?c] => change (is_digit c) with true
    end;
    cbv iota; rewrite IHd, Nat2N.inj_succ;
    replace (count + 1 + N.of_nat (Decimal.nb_digits d))
      with (count + N.succ (N.of_nat (Decimal.nb_digits d))) by lia;
    reflexivity.
Qed.

Lemma digits_value_acc (d : Decimal.uint) (acc : positive) :
  digits_value d (Npos acc) = Npos (Pos.of_uint_acc d acc).
Proof.
  revert acc. induction d; intros acc; cbn [digits_value Pos.of_uint_acc];
    try reflexivity;
    match goal with
    | |- digits_value _ ?a = _ =>
        match goal with
        | |- _ = Npos (Pos.of_uint_acc _ ?b) =>
            replace a with (Npos b) by lia
        end
    end; apply IHd.
Qed.

Lemma digits_value_0 (d : Decimal.uint) : digits_value d 0 = Pos.of_uint d.
Proof.
  induction d; cbn [digits_value Pos.of_uint];
    try reflexivity; try exact IHd;
    match goal with
    | |- digits_value _ ?a = Npos (Pos.of_uint_acc _ ?b) =>
        change a with (Npos b)
    end; apply digits_value_acc.
Qed.

(** After the sign, the digits of a positive number read as it. *)
Lemma parse_digits_pos (negative : bool) (p : positive) :
  (max_str_digits env = 0
   \/ N.of_nat (Decimal.nb_digits (Pos.to_uint p)) <= max_str_digits env) ->
  parse_digits env negative (py (NilEmpty.string_of_uint (Pos.to_uint p)))
  = Some (if negative then Z.neg p else Z.pos p).
Proof.
  intros Hlimit. unfold parse_digits.
  pose proof (uint_chars_digits (Pos.to_uint p)) as Hdigits.
  pose proof (DecimalPos.Unsigned.to_uint_nonnil p) as Hnonnil.
  assert (Decimal.nb_digits (Pos.to_uint p) <> 0%nat) as Hcount
    by (destruct (Pos.to_uint p); [congruence | discriminate ..]).
  rewrite scan_uint, digits_value_0, DecimalPos.Unsigned.of_to.
  destruct (py (NilEmpty.string_of_uint (Pos.to_uint p))) as [|c rest] eqn:E.
  - destruct (Pos.to_uint p); [congruence | discriminate ..].
  - destruct (is_digit_plain c (Forall_inv Hdigits)) as (_ & _ & _ & _ & H95).
    rewrite H95.
    replace (0 + N.of_nat (Decimal.nb_digits (Pos.to_uint p)) =? 0) with false
      by (symmetry; apply N.eqb_neq; lia).
    replace ((0 <? max_str_digits env)
             && (max_str_digits env <? 0 + N.of_nat (Decimal.nb_digits (Pos.to_uint p))))
      with false.
    + destruct negative; reflexivity.
    + symmetry. apply andb_false_iff. destruct Hlimit as [H0 | Hle].
      * left. apply N.ltb_ge. lia.
      * right. apply N.ltb_ge. lia.
Qed.

(** [int(str(n)) = n]. *)
Lemma int_of_str_of_int (n : Z) :
  within_digit_limit env n -> int_of_str env (str_of_int n) = Some n.
Proof.
  unfold within_digit_limit. intros Hlimit.
  destruct n as [|p|p].
  - unfold int_of_str, parse_digits.
    change (skip_spaces (map (to_ascii env) (str_of_int 0))) with [48].
    cbn [scan_digits]. change (is_digit 48) with true. cbv iota.
    change (48 =? 43) with false. change (48 =? 45) with false.
    change (48 =? 95) with false. cbv iota. cbn [scan_digits].
    change (0 + 1 =? 0) with false. cbv iota.
    replace ((0 <? max_str_digits env) && (max_str_digits env <? 0 + 1)) with false
      by (symmetry; apply andb_false_iff;
          destruct (N.eq_dec (max_str_digits env) 0);
          [left; apply N.ltb_ge | right; apply N.ltb_ge]; lia).
    reflexivity.
  - change (str_of_int (Z.abs (Z.pos p)))
      with (py (NilZero.string_of_uint (Pos.to_uint p))) in Hlimit.
    change (str_of_int (Z.pos p))
      with (py (NilZero.string_of_uint (Pos.to_uint p))).
    pose proof (DecimalPos.Unsigned.to_uint_nonnil p) as Hnonnil.
    assert (NilZero.string_of_uint (Pos.to_uint p)
            = NilEmpty.string_of_uint (Pos.to_uint p)) as E
      by (destruct (Pos.to_uint p); [congruence | reflexivity ..]).
    rewrite E in *. rewrite uint_chars_length in Hlimit.
    pose proof (uint_chars_digits (Pos.to_uint p)) as Hdigits.
    pose proof (parse_digits_pos false p Hlimit) as Hparse.
    unfold int_of_str. rewrite (to_ascii_digits _ Hdigits).
    destruct (py (NilEmpty.string_of_uint (Pos.to_uint p))) as [|c rest] eqn:Ec.
    + destruct (Pos.to_uint p); [congruence | discriminate ..].
    + destruct (is_digit_plain c (Forall_inv Hdigits)) as (_ & Hsp & H43 & H45 & _).
      cbn [skip_spaces]. rewrite Hsp, H43, H45. exact Hparse.
  - change (str_of_int (Z.abs (Z.neg p)))
      with (py (NilZero.string_of_uint (Pos.to_uint p))) in Hlimit.
    change (str_of_int (Z.neg p))
      with (45 :: py (NilZero.string_of_uint (Pos.to_uint p))).
    pose proof (DecimalPos.Unsigned.to_uint_nonnil p) as Hnonnil.
    assert (NilZero.string_of_uint (Pos.to_uint p)
            = NilEmpty.string_of_uint (Pos.to_uint p)) as E
      by (destruct (Pos.to_uint p); [congruence | reflexivity ..]).
    rewrite E in *. rewrite uint_chars_length in Hlimit.
    pose proof (uint_chars_digits (Pos.to_uint p)) as Hdigits.
    pose proof (parse_digits_pos true p Hlimit) as Hparse.
    unfold int_of_str.
    cbn [map]. rewrite (to_ascii_digits _ Hdigits).
    change (to_ascii env 45) with 45.
    cbn [skip_spaces]. change (is_space 45) with false. cbv iota.
    change (45 =? 43) with false. change (45 =? 45) with true. cbv iota.
    exact Hparse.
Qed.

End DigitFacts.
End DigitFacts.

(** ** The body has printable characters only *)

Module PrintableFacts.

Import Json More.

Lemma printable_app (a b : bytes) :
  printable_text a -> printable_text b -> printable_text (a +:+ b).
Proof.
  unfold printable_text. induction a as [|x a IH]; intros Ha Hb; [exact Hb |].
  cbn [append list_ascii_of_string] in *.
  constructor; [exact (Forall_inv Ha) | exact (IH (Forall_inv_tail Ha) Hb)].
Qed.

Lemma printable_cons (x : ascii) (s : bytes) :
  (32 <= N_of_ascii x)%N -> (N_of_ascii x <= 126)%N ->
  printable_text s -> printable_text (String x s).
Proof.
  intros H1 H2 Hs. unfold printable_text. cbn [list_ascii_of_string].
  constructor; [split; assumption | exact Hs].
Qed.

(** A text that is known: checked character by character. *)
Lemma printable_literal (s : bytes) :
  forallb (fun x => N.leb 32 (N_of_ascii x) && N.leb (N_of_ascii x) 126)
          (list_ascii_of_string s) = true ->
  printable_text s.
Proof.
  unfold printable_text. intros H. apply List.Forall_forall. intros x Hx.
  rewrite forallb_forall in H. specialize (H x Hx).
  apply andb_true_iff in H. destruct H as [H1 H2].
  split; apply N.leb_le; assumption.
Qed.

Lemma hex_digit_printable (d : N) :
  (d < 16)%N ->
  (32 <= N_of_ascii (hex_digit d))%N /\ (N_of_ascii (hex_digit d) <= 126)%N.
Proof.
  intros H. unfold hex_digit.
  destruct (N.ltb_spec d 10); rewrite N_ascii_embedding; lia.
Qed.

Lemma u_escape_printable (n : N) : printable_text (u_escape n).
Proof.
  unfold u_escape.
  apply printable_cons; [discriminate | discriminate |].
  apply printable_cons; [discriminate | discriminate |].
  repeat (apply printable_cons;
          [apply hex_digit_printable, StringFacts.mod16_lt
          | apply hex_digit_printable, StringFacts.mod16_lt |]).
  constructor.
Qed.

Lemma escape_char_printable (c : N) : printable_text (escape_char c).
Proof.
  unfold escape_char.
  destruct (c =? 34)%N; [apply printable_literal; reflexivity |].
  destruct (c =? 92)%N; [apply printable_literal; reflexivity |].
  destruct (c =? 8)%N; [apply printable_literal; reflexivity |].
  destruct (c =? 12)%N; [apply printable_literal; reflexivity |].
  destruct (c =? 10)%N; [apply printable_literal; reflexivity |].
  destruct (c =? 13)%N; [apply printable_literal; reflexivity |].
  destruct (c =? 9)%N; [apply printable_literal; reflexivity |].
  destruct ((32 <=? c) && (c <=? 126))%N eqn:Hprint.
  { apply andb_true_iff in Hprint. destruct Hprint as [Hl Hu].
    apply N.leb_le in Hl, Hu.
    apply printable_cons; [| | constructor]; rewrite N_ascii_embedding; lia. }
  destruct (c <? 65536)%N; [apply u_escape_printable |].
  cbv zeta. apply printable_app; apply u_escape_printable.
Qed.

Lemma escape_chars_printable (s : pystr) : printable_text (escape_chars s).
Proof.
  induction s as [|c s IH]; [constructor |].
  cbn [escape_chars]. apply printable_app; [apply escape_char_printable | exact IH].
Qed.

Lemma payload_printable (rep : float -> string) (label : pystr) :
  printable_text (dumps rep [(py "score", VFloat (Score.score_of_label label));
                             (py "label", VStr label)]).
Proof.
  rewrite PayloadFacts.dumps_shape, PayloadFacts.floatstr_score.
  assert (printable_text (if decide (label = py "left") then "-1.0"
                          else if decide (label = py "right") then "1.0" else "0.0"))
    as Hlit by (repeat case_decide; apply printable_literal; reflexivity).
  assert (printable_text (escape_chars label +:+ String dquote "}")) as Hlabel.
  { apply printable_app; [apply escape_chars_printable |].
    apply printable_literal; reflexivity. }
  set (lit := if decide (label = py "left") then _ else _) in *. clearbody lit.
  set (rest := escape_chars label +:+ _) in *. clearbody rest.
  cbn [append].
  repeat (apply printable_cons; [discriminate | discriminate |]).
  apply printable_app; [exact Hlit |].
  repeat (apply printable_cons; [discriminate | discriminate |]).
  exact Hlabel.
Qed.

End PrintableFacts.

(** ** A score that is not a number *)

Module NonFiniteFacts.

Import Json JsonRead.

(** A member whose value does not parse spoils the object. *)
Lemma loads_bad_score (lit rest : string) :
  lit = "NaN"%string \/ lit = "Infinity"%string \/ lit = "-Infinity"%string ->
  loads (String "{" (String dquote ("score" +:+ String dquote (": " +:+ lit +:+ rest))))
  = None.
Proof.
  intros Hlit. unfold loads.
  rewrite PayloadFacts.skip_ws_nonspace by reflexivity.
  cbn [String.length append].
  rewrite PayloadFacts.parse_object_open.
  assert (forall f, parse_value f (skip_ws (lit +:+ rest)) = None) as Hvalue.
  { intros [|f]; [reflexivity |].
    destruct Hlit as [-> | [-> | ->]]; reflexivity. }
  rewrite (PayloadFacts.parse_member _ _ (lit +:+ rest) (py "score")).
  - rewrite Hvalue. reflexivity.
  - apply (PayloadFacts.scan_key "score"). left; reflexivity.
Qed.

Lemma floatstr_non_finite (rep : float -> string) (f : float) :
  f = nan \/ f = infinity \/ f = neg_infinity ->
  floatstr rep f = "NaN"%string \/ floatstr rep f = "Infinity"%string
  \/ floatstr rep f = "-Infinity"%string.
Proof. intros [-> | [-> | ->]]; auto. Qed.

End NonFiniteFacts.

(** ** Split pairs: what any label reads back as *)

Module PairFacts.

Import Json JsonRead Text More.

Local Open Scope N_scope.

(** A code point in [D800..DFFF] is written as one escape. *)
Lemma escape_char_surrogate (c : N) :
  0xd800 <= c -> c <= 0xdfff -> escape_char c = u_escape c.
Proof.
  intros Hl Hu. unfold escape_char.
  repeat match goal with
         | |- context [N.eqb c ?k] =>
             replace (N.eqb c k) with false by (symmetry; apply N.eqb_neq; lia)
         end.
  replace (c <=? 126) with false by (symmetry; apply N.leb_gt; lia).
  rewrite andb_false_r.
  replace (c <? 65536) with true by (symmetry; apply N.ltb_lt; lia).
  reflexivity.
Qed.

Lemma surrogate_bounds (c : N) :
  is_high_surrogate c = true \/ is_low_surrogate c = true ->
  0xd800 <= c /\ c <= 0xdfff.
Proof.
  unfold is_high_surrogate, is_low_surrogate.
  intros [H | H]; apply andb_true_iff in H; destruct H as [H1 H2];
    apply N.leb_le in H1, H2; lia.
Qed.

(** The escapes of the two halves of a pair read back as one code point. *)
Lemma scan_split_pair (a b : N) (t : string) :
  is_high_surrogate a = true -> is_low_surrogate b = true ->
  scanstring (escape_char a +:+ escape_char b +:+ t)
  = push (join_surrogates a b) (scanstring t).
Proof.
  intros Ha Hb.
  destruct (surrogate_bounds a (or_introl Ha)) as [Ha1 Ha2].
  destruct (surrogate_bounds b (or_intror Hb)) as [Hb1 Hb2].
  rewrite (escape_char_surrogate a Ha1 Ha2), (escape_char_surrogate b Hb1 Hb2).
  destruct (StringFacts.u_escape_shape b t ltac:(lia)) as (g1 & g2 & g3 & g4 & E2 & Hg).
  rewrite E2.
  destruct (StringFacts.u_escape_shape a
              (String "\" (String "u" (String g1 (String g2 (String g3 (String g4 t))))))
              ltac:(lia))
    as (h1 & h2 & h3 & h4 & E1 & Hh).
  rewrite E1. apply StringFacts.scan_u_pair; assumption.
Qed.

(** The escaped text of any string, up to its closing quote, reads back
    as the string with its split pairs joined. *)
Lemma scan_escape_chars_any (l : pystr) (rest : string) :
  code_points l ->
  scanstring (escape_chars l +:+ String dquote rest) = Some (join_pairs l, rest).
Proof.
  assert (forall l,
             (code_points l ->
              scanstring (escape_chars l +:+ String dquote rest)
              = Some (join_pairs l, rest))
             /\ (forall a, code_points (a :: l) ->
                 scanstring (escape_chars (a :: l) +:+ String dquote rest)
                 = Some (join_pairs (a :: l), rest))) as H.
  { clear l. induction l as [|b l [IH1 IH2]].
    - split; [reflexivity |].
      intros a Hcp. cbn [escape_chars join_pairs]. rewrite append_assoc.
      rewrite StringFacts.scan_escape_char.
      + reflexivity.
      + exact (Forall_inv Hcp).
      + intros _. destruct rest; reflexivity.
    - split; [apply IH2 |].
      intros a Hcp.
      pose proof (Forall_inv Hcp) as Ha. pose proof (Forall_inv_tail Hcp) as Hbl.
      cbn [join_pairs].
      destruct (is_high_surrogate a && is_low_surrogate b) eqn:Hpair.
      + apply andb_true_iff in Hpair. destruct Hpair as [Hhi Hlo].
        cbn [escape_chars]. rewrite !append_assoc.
        rewrite (scan_split_pair a b _ Hhi Hlo).
        rewrite (IH1 (Forall_inv_tail Hbl)). reflexivity.
      + change (escape_chars (a :: b :: l)) with (escape_char a +:+ escape_chars (b :: l)).
        rewrite append_assoc.
        rewrite StringFacts.scan_escape_char.
        * rewrite (IH2 b Hbl). reflexivity.
        * exact Ha.
        * intros Hhi. apply StringFacts.no_low_escape_chars; [exact Hbl |].
          rewrite Hhi in Hpair. exact Hpair. }
  intros Hcp. apply (H l). exact Hcp.
Qed.

(** Where no pair is split there is nothing to join. *)
Lemma join_pairs_whole (l : pystr) : no_split_pair l = true -> join_pairs l = l.
Proof.
  induction l as [|a l IH]; [reflexivity |].
  destruct l as [|b l]; [reflexivity |].
  intros H. cbn [no_split_pair] in H. apply andb_true_iff in H.
  destruct H as [Hab Hrest]. apply negb_true_iff in Hab.
  change (join_pairs (a :: b :: l))
    with (if is_high_surrogate a && is_low_surrogate b
          then join_surrogates a b :: join_pairs l
          else a :: join_pairs (b :: l)).
  rewrite Hab, (IH Hrest). reflexivity.
Qed.

(** The handler's text reads back as an object with the two members in
    the order written, whatever the label. *)
Lemma loads_shape_any (lit : string) (label : pystr) :
  lit = "-1.0"%string \/ lit = "0.0"%string \/ lit = "1.0"%string ->
  code_points label ->
  loads (String "{" (String dquote ("score" +:+ String dquote (": " +:+
      lit +:+ ", " +:+ String dquote ("label" +:+ String dquote (": " +:+
      String dquote (escape_chars label +:+ String dquote "}")))))))
  = Some (JObject [(py "score", JNumber lit); (py "label", JString (join_pairs label))]).
Proof.
  intros Hlit Hcp.
  pose proof (scan_escape_chars_any label "}" Hcp) as Hscan.
  set (t := escape_chars label +:+ String dquote "}") in *.
  assert (exists a v, lit = String a v /\ is_ws a = false) as (a & v & -> & Ha).
  { destruct Hlit as [-> | [-> | ->]]; eexists _, _; split; reflexivity. }
  assert (forall f,
      parse_members (S (S (S f)))
        (String dquote ("score" +:+ String dquote (": " +:+
           String a v +:+ ", " +:+ String dquote ("label" +:+ String dquote (": " +:+
           String dquote t)))))
      = Some ([(py "score", JNumber (String a v));
               (py "label", JString (join_pairs label))],
              EmptyString)) as Hmembers.
  { intros f.
    apply (PayloadFacts.parse_member_more _ _
             (v +:+ ", " +:+ String dquote ("label" +:+
                String dquote (": " +:+ String dquote t)))
             ("label" +:+ String dquote (": " +:+ String dquote t))
             EmptyString a).
    - apply (PayloadFacts.scan_key "score"). left; reflexivity.
    - exact Ha.
    - apply (PayloadFacts.parse_score _ (String a v)). exact Hlit.
    - apply (PayloadFacts.parse_member_last _ _ t EmptyString dquote).
      + apply (PayloadFacts.scan_key "label"). right; reflexivity.
      + reflexivity.
      + rewrite PayloadFacts.parse_string_value, Hscan. reflexivity. }
  unfold loads. rewrite PayloadFacts.skip_ws_nonspace by reflexivity.
  cbn [String.length append].
  rewrite PayloadFacts.parse_object_open.
  cbn [append] in Hmembers. rewrite Hmembers. reflexivity.
Qed.

Lemma loads_payload_any (rep : float -> string) (label : pystr) :
  code_points label ->
  loads (dumps rep [(py "score", VFloat (Score.score_of_label label));
                    (py "label", VStr label)])
  = Some (JObject [(py "score", JNumber (floatstr rep (Score.score_of_label label)));
                   (py "label", JString (join_pairs label))]).
Proof.
  intros Hcp. rewrite PayloadFacts.dumps_shape.
  apply loads_shape_any; [| exact Hcp].
  rewrite PayloadFacts.floatstr_score. repeat case_decide; auto.
Qed.

End PairFacts.

(** ** The port and the bind *)

Module RunFacts.

Import Process.

Section RunFacts.

Context (env : Env).

Lemma bind_failure_range (port : Z) :
  port < 0 \/ 65535 < port -> bind_failure env port = Some Py.OverflowError.
Proof.
  intros H. unfold bind_failure.
  replace ((port <? 0) || (65535 <? port)) with true; [reflexivity |].
  symmetry. apply orb_true_iff.
  destruct H as [H | H]; [left | right]; apply Z.ltb_lt; exact H.
Qed.

Lemma bind_failure_none (port : Z) :
  bind_failure env port = None <-> (0 <= port <= 65535 /\ os_bind env port = None).
Proof.
  unfold bind_failure. split.
  - destruct ((port <? 0) || (65535 <? port)) eqn:Hr; [discriminate |].
    apply orb_false_iff in Hr. destruct Hr as [H1 H2].
    apply Z.ltb_ge in H1, H2.
    destruct (os_bind env port); [discriminate |]. intros _. split; [lia | reflexivity].
  - intros [Hr Hos].
    replace ((port <? 0) || (65535 <? port)) with false.
    + rewrite Hos. reflexivity.
    + symmetry. apply orb_false_iff. split; apply Z.ltb_ge; lia.
Qed.

(** The text of an integer has ASCII characters only. *)
Lemma str_of_int_ascii (n : Z) : Forall (fun c => (c < 128)%N) (str_of_int n).
Proof.
  assert (forall d, Forall (fun c => (c < 128)%N) (py (NilZero.string_of_uint d)))
    as Hd.
  { intros d.
    assert (Forall (fun c => Int.is_digit c = true) (py (NilZero.string_of_uint d)))
      as H.
    { destruct d; try apply (DigitFacts.uint_chars_digits (_ d)).
      repeat constructor. }
    eapply Forall_impl; [exact H |]. cbv beta. intros c Hc.
    apply (DigitFacts.is_digit_plain c Hc). }
  unfold str_of_int. destruct (Z.to_int n) as [d | d]; cbn [NilZero.string_of_int].
  - apply Hd.
  - change (py (String "-" (NilZero.string_of_uint d)))
      with (45%N :: py (NilZero.string_of_uint d)).
    constructor; [reflexivity | apply Hd].
Qed.

Lemma takes_ascii (l : pystr) :
  Forall (fun c => (c < 128)%N) l -> stdout_takes env l = true.
Proof.
  unfold stdout_takes. induction 1 as [|c l Hc Hl IH]; [reflexivity |].
  cbn [forallb]. rewrite IH.
  replace (c <? 128)%N with true by (symmetry; apply N.ltb_lt; exact Hc).
  reflexivity.
Qed.

Lemma takes_app (a b : pystr) :
  stdout_takes env (a ++ b) = stdout_takes env a && stdout_takes env b.
Proof. unfold stdout_takes. apply forallb_app. Qed.

(** The line of line 29 can be printed exactly when the label can. *)
Lemma banner_takes (label : pystr) (port : Z) :
  stdout_takes env (banner label port) = stdout_takes env label.
Proof.
  unfold banner. rewrite !takes_app.
  rewrite (takes_ascii (str_of_int port) (str_of_int_ascii port)).
  replace (stdout_takes env (py "Starting mock LLM service for ")) with true
    by reflexivity.
  replace (stdout_takes env (py " on port ")) with true by reflexivity.
  replace (stdout_takes env (py "...")) with true by reflexivity.
  cbn [andb]. rewrite !andb_true_r. reflexivity.
Qed.

End RunFacts.
End RunFacts.

(** ** An exception in a handler *)

Module ServeFacts.

Import Process Http.

Section ServeFacts.

Context (env : Env).

(** A serving process handles every request and stays as it is. *)
Lemma handle_serving (p : process) (srv : nat) (r : request) :
  serving p = Some srv ->
  exists res calls, handle env p r = Some (res, calls, p).
Proof.
  intros Hsrv. destruct (handle env p r) as [[[res calls] p'] |] eqn:H.
  - pose proof (HttpFacts.handle_process env _ _ _ _ _ H) as ->.
    exists res, calls. reflexivity.
  - unfold handle in H. rewrite Hsrv in H.
    destruct (handle_one_request env _ _). discriminate.
Qed.

End ServeFacts.
End ServeFacts.

(** * Further theorems *)


(** X2. The program serves exactly when [sys.argv] has three entries,
    [int] accepts the third, its value is a port in [0..65535], the
    operating system grants the bind, and the standard output can
    encode the label. *)
Theorem X2_serves_iff (env : Env) (argv : list pystr) :
  fst (Process.python env argv) = Process.Serving
  <-> exists prog label port_text port,
        argv = [prog; label; port_text]
        /\ Int.int_of_str env port_text = Some port
        /\ 0 <= port <= 65535
        /\ os_bind env port = None
        /\ Process.stdout_takes env label = true.
Proof.
  split.
  - intros H.
    destruct (Nat.eq_dec (length argv) 3%nat) as [Hlen | Hlen].
    + destruct argv as [|prog [|label [|port_text [|x argv]]]];
        try (cbn [length] in Hlen; lia).
      rewrite ProcessFacts.python_three in H.
      destruct (Int.int_of_str env port_text) as [port|] eqn:Hint; [| discriminate].
      destruct (Process.bind_failure env port) as [e|] eqn:Hb; [discriminate |].
      rewrite RunFacts.banner_takes in H.
      destruct (Process.stdout_takes env label) eqn:Hout; [| discriminate].
      apply RunFacts.bind_failure_none in Hb. destruct Hb as [Hr Hos].
      exists prog, label, port_text, port. auto.
    + unfold Process.python in H.
      rewrite (ProcessFacts.main_usage env argv Hlen) in H. discriminate.
  - intros (prog & label & port_text & port & -> & Hint & Hr & Hos & Hout).
    rewrite ProcessFacts.python_three, Hint.
    rewrite (proj2 (RunFacts.bind_failure_none env port) (conj Hr Hos)).
    rewrite RunFacts.banner_takes, Hout. reflexivity.
Qed.

(** X3. [int] reads the decimal text of an integer back as that
    integer: [int(str(n)) == n], for every [n] whose digits are within
    the interpreter's limit. *)
Theorem X3_int_of_str_of_int (env : Env) (n : Z) :
  More.within_digit_limit env n ->
  Int.int_of_str env (str_of_int n) = Some n.
Proof. apply DigitFacts.int_of_str_of_int. Qed.

Lemma X3_int_of_str_of_int_witness :
  More.within_digit_limit sample_env (-8080)
  /\ Int.int_of_str sample_env (str_of_int (-8080)) = Some (-8080).
Proof.
  assert (More.within_digit_limit sample_env (-8080)) as H
    by (right; vm_compute; discriminate).
  split; [exact H |]. apply (X3_int_of_str_of_int sample_env (-8080) H).
Defined.

(** X4. A port argument that is the decimal text of an integer outside
    [0..65535] passes [int] and fails in the bind: the program ends with
    [OverflowError] uncaught (a traceback, status 1), nothing printed,
    no socket listening. *)
Theorem X4_port_out_of_range (env : Env) (prog label : pystr) (port : Z) :
  port < 0 \/ 65535 < port ->
  More.within_digit_limit env port ->
  Process.python env [prog; label; str_of_int port]
  = (Process.Exited 1 (Some Py.OverflowError), Process.initial).
Proof.
  intros Hr Hlimit.
  rewrite ProcessFacts.python_three.
  rewrite (DigitFacts.int_of_str_of_int env port Hlimit).
  rewrite (RunFacts.bind_failure_range env port Hr). reflexivity.
Qed.

Lemma X4_port_out_of_range_witness :
  (65536 < 0 \/ 65535 < 65536)
  /\ More.within_digit_limit sample_env 65536
  /\ Process.python sample_env [py "mock_llm_service.py"; py "left"; py "65536"]
     = (Process.Exited 1 (Some Py.OverflowError), Process.initial).
Proof.
  assert (65536 < 0 \/ 65535 < 65536) as Hr by (right; lia).
  assert (More.within_digit_limit sample_env 65536) as Hlimit
    by (right; vm_compute; discriminate).
  split; [exact Hr |]. split; [exact Hlimit |].
  apply (X4_port_out_of_range sample_env (py "mock_llm_service.py") (py "left")
           65536 Hr Hlimit).
Defined.

(** X5. A port argument that holds any character other than a digit,
    an underscore, a blank or a sign (a letter, a dot, a hexadecimal
    prefix, ...) ends the program with [ValueError] uncaught, before
    any socket is bound. *)
Theorem X5_port_with_other_character (env : Env) (prog label port_text : pystr)
    (c : N) :
  In c port_text ->
  Int.literal_char (Int.to_ascii env c) = false ->
  Process.python env [prog; label; port_text]
  = (Process.Exited 1 (Some Py.ValueError), Process.initial).
Proof.
  intros Hin Hc. rewrite ProcessFacts.python_three.
  rewrite (IntFacts.int_of_str_refuses env port_text c Hin Hc). reflexivity.
Qed.

Lemma X5_port_with_other_character_witness :
  In 46%N (py "80.0")
  /\ Int.literal_char (Int.to_ascii sample_env 46%N) = false
  /\ Process.python sample_env [py "mock_llm_service.py"; py "left"; py "80.0"]
     = (Process.Exited 1 (Some Py.ValueError), Process.initial).
Proof.
  assert (In 46%N (py "80.0")) as Hin by (right; right; left; reflexivity).
  split; [exact Hin |]. split; [reflexivity |].
  apply (X5_port_with_other_character sample_env (py "mock_llm_service.py")
           (py "left") (py "80.0") 46%N Hin eq_refl).
Defined.

(** X6. With a label that the standard output can encode and the
    decimal text of a port in [0..65535] that the operating system
    grants, the program serves.  It has then printed the one line
    [Starting mock LLM service for <label> on port <port>...], with the
    port as given; it listens on that port, or for port 0 on the one
    the kernel picked; and its server object holds the label and the
    score of the label. *)
Theorem X6_decimal_port_serves (env : Env) (prog label : pystr) (port : Z) :
  0 <= port <= 65535 ->
  os_bind env port = None ->
  More.within_digit_limit env port ->
  Process.stdout_takes env label = true ->
  exists p : Process.process,
    Process.python env [prog; label; str_of_int port] = (Process.Serving, p)
    /\ Process.stdout p
       = [py "Starting mock LLM service for " ++ label ++ py " on port "
          ++ str_of_int port ++ py "..."]
    /\ Process.listening p = [if port =? 0 then ephemeral_port env else port]
    /\ Process.getattr 0 "label" p = (Py.Return (VStr label), p)
    /\ Process.getattr 0 "score" p
       = (Py.Return (VFloat (Score.score_of_label label)), p).
Proof.
  intros Hr Hos Hlimit Hout.
  exists (Process.started env label port).
  split; [| split; [reflexivity | split; [reflexivity | split]]].
  - rewrite ProcessFacts.python_three.
    rewrite (DigitFacts.int_of_str_of_int env port Hlimit).
    rewrite (proj2 (RunFacts.bind_failure_none env port) (conj Hr Hos)).
    rewrite RunFacts.banner_takes, Hout. reflexivity.
  - apply ProcessFacts.started_label.
  - apply ProcessFacts.started_score.
Qed.

Lemma X6_decimal_port_serves_witness :
  0 <= 0 <= 65535
  /\ os_bind sample_env 0 = None
  /\ More.within_digit_limit sample_env 0
  /\ Process.stdout_takes sample_env [99; 97; 102; 233]%N = true
  /\ exists p,
       Process.python sample_env [py "mock_llm_service.py"; [99; 97; 102; 233]%N; py "0"]
       = (Process.Serving, p)
       /\ Process.stdout p = [py "Starting mock LLM service for " ++ [99; 97; 102; 233]%N
                               ++ py " on port 0..."]
       /\ Process.listening p = [49152].
Proof.
  assert (0 <= 0 <= 65535) as Hr by lia.
  assert (More.within_digit_limit sample_env 0) as Hlimit
    by (right; vm_compute; discriminate).
  split; [exact Hr |]. split; [reflexivity |]. split; [exact Hlimit |].
  split; [reflexivity |].
  destruct (X6_decimal_port_serves sample_env (py "mock_llm_service.py")
              [99; 97; 102; 233]%N 0 Hr eq_refl Hlimit eq_refl)
    as (p & Hrun & Hout & Hlisten & _).
  exists p. split; [exact Hrun |]. split; [exact Hout | exact Hlisten].
Defined.

(** X7. [do_POST] reads [self.server.score] first and
    [self.server.label] second, before it sends anything: when the
    server object lacks one of them the handler raises [AttributeError]
    for the first one missing, no part of a response has been sent, and
    the process is as it was. *)
Theorem X7_missing_attribute (env : Env) (p : Process.process) (srv : nat)
    (attrs : Process.obj) (r : Http.request) :
  Process.serving p = Some srv ->
  Process.heap p !! srv = Some attrs ->
  Http.command r = "POST"%string ->
  attrs !! "score"%string = None \/ attrs !! "label"%string = None ->
  Http.handle env p r
  = Some (Py.Raise (Py.AttributeError
                      (match attrs !! "score"%string with
                       | None => "score"%string
                       | Some _ => "label"%string
                       end)),
          [], p).
Proof.
  intros Hsrv Hheap Hcmd Hmiss.
  unfold Http.handle, Http.handle_one_request. rewrite Hsrv.
  rewrite (HttpFacts.find_POST env
             (Http.command (Http.req {| Http.server := srv; Http.req := r |})) Hcmd).
  unfold Http.do_POST, Py.bind, Http.lift, Process.getattr.
  cbn [Http.proc Http.sent Http.server]. rewrite Hheap.
  destruct (attrs !! "score"%string) as [score|] eqn:Hs; [| reflexivity].
  destruct Hmiss as [Hmiss | Hmiss]; [discriminate |].
  cbn [Http.proc Http.sent]. rewrite Hheap, Hmiss. reflexivity.
Qed.

Lemma X7_missing_attribute_witness :
  Process.serving More.bare_server = Some 0%nat
  /\ Http.handle sample_env More.bare_server (sample_request "POST")
     = Some (Py.Raise (Py.AttributeError "score"), [], More.bare_server).
Proof.
  split; [reflexivity |].
  pose proof (X7_missing_attribute sample_env More.bare_server 0%nat ∅
                (sample_request "POST") eq_refl (lookup_insert_eq _ _ _) eq_refl
                (or_introl (lookup_empty _))) as H.
  rewrite lookup_empty in H. exact H.
Defined.

(** X8. A running instance answers every request of a sequence, each
    by its method alone: a POST with the calls of [do_POST] for the
    label and the score of the start, anything else with error 501; and
    the process is afterwards as it was. *)
Theorem X8_serve_answers_each (env : Env) (label : pystr) (port : Z)
    (rs : list Http.request) :
  Http.serve env (Process.started env label port) rs
  = (map (More.answer env (VFloat (Score.score_of_label label)) (VStr label)) rs,
     Process.started env label port).
Proof.
  induction rs as [|r rs IH]; [reflexivity |].
  cbn [Http.serve map]. unfold More.answer at 1.
  destruct (String.eqb_spec (Http.command r) "POST") as [Hcmd | Hcmd].
  - rewrite (HttpFacts.started_POST env label port r Hcmd), IH. reflexivity.
  - rewrite (HttpFacts.handle_other env (Process.started env label port) 0%nat r
               eq_refl Hcmd), IH.
    reflexivity.
Qed.

(** X9. A handler that raises ends its own request only: a serving
    process, whatever its server object holds, takes every request of a
    sequence in turn and is afterwards as it was. *)
Theorem X9_serve_goes_on (env : Env) (p : Process.process) (srv : nat)
    (rs : list Http.request) :
  Process.serving p = Some srv ->
  length (fst (Http.serve env p rs)) = length rs
  /\ snd (Http.serve env p rs) = p.
Proof.
  intros Hsrv. split; [| apply HttpFacts.serve_process].
  induction rs as [|r rs IH]; [reflexivity |].
  cbn [Http.serve].
  destruct (ServeFacts.handle_serving env p srv r Hsrv) as (res & calls & ->).
  destruct (Http.serve env p rs) as [out p'']. cbn [fst length] in *.
  rewrite IH. reflexivity.
Qed.

Lemma X9_serve_goes_on_witness :
  Process.serving More.bare_server = Some 0%nat
  /\ length (fst (Http.serve sample_env More.bare_server
                    [sample_request "POST"; sample_request "GET";
                     sample_request "POST"])) = 3%nat.
Proof.
  split; [reflexivity |].
  apply (X9_serve_goes_on sample_env More.bare_server 0%nat
           [sample_request "POST"; sample_request "GET"; sample_request "POST"]
           eq_refl).
Defined.

(** X10. The body of the response to a POST is made of printable ASCII
    characters only (blank to tilde), whatever the label: no control
    character and no byte above 126 goes out, every such character of
    the label is escaped. *)
Theorem X10_body_printable (env : Env) (label : pystr) (port : Z)
    (r : Http.request) :
  Http.command r = "POST"%string ->
  exists (calls : list Http.call) (resp : Http.response),
    Http.handle env (Process.started env label port) r
    = Some (Py.Return tt, calls, Process.started env label port)
    /\ Http.response_of calls = Some resp
    /\ More.printable_text (Http.body resp).
Proof.
  intros Hcmd.
  exists (Http.post_calls env (VFloat (Score.score_of_label label)) (VStr label)).
  eexists.
  split; [apply HttpFacts.started_POST; exact Hcmd |].
  split; [apply HttpFacts.response_of_post_calls |].
  cbn [Http.body]. apply PrintableFacts.payload_printable.
Qed.

Lemma X10_body_printable_witness :
  exists calls resp,
    Http.handle sample_env (Process.started sample_env [10; 233; 0x1f600]%N 8080)
      (sample_request "POST")
    = Some (Py.Return tt, calls, Process.started sample_env [10; 233; 0x1f600]%N 8080)
    /\ Http.response_of calls = Some resp
    /\ More.printable_text (Http.body resp).
Proof.
  apply (X10_body_printable sample_env [10; 233; 0x1f600]%N 8080
           (sample_request "POST") eq_refl).
Defined.

(** X11. [do_POST] writes whatever float the server object holds: for
    a score that is not a number or is infinite the response is still a
    200, and its body ([NaN], [Infinity] or [-Infinity] for the score) is
    not JSON. *)
Theorem X11_non_finite_score (env : Env) (p : Process.process) (srv : nat)
    (f : float) (label : pyval) (r : Http.request) :
  Process.serving p = Some srv ->
  Process.getattr srv "score" p = (Py.Return (VFloat f), p) ->
  Process.getattr srv "label" p = (Py.Return label, p) ->
  Http.command r = "POST"%string ->
  f = nan \/ f = infinity \/ f = neg_infinity ->
  exists (calls : list Http.call) (resp : Http.response),
    Http.handle env p r = Some (Py.Return tt, calls, p)
    /\ Http.response_of calls = Some resp
    /\ Http.status resp = 200
    /\ JsonRead.loads (Http.body resp) = None.
Proof.
  intros Hsrv Hs Hl Hcmd Hf.
  exists (Http.post_calls env (VFloat f) label). eexists.
  split; [exact (HttpFacts.handle_POST env p srv r _ _ Hsrv Hcmd Hs Hl) |].
  split; [apply HttpFacts.response_of_post_calls |].
  split; [reflexivity |].
  cbn [Http.body]. rewrite dumps_text.
  change (Json.encode_basestring_ascii (py "score"))
    with (String dquote ("score" +:+ String dquote EmptyString)).
  cbn [Json.dumps_value].
  pose proof (NonFiniteFacts.floatstr_non_finite (float_shortest_repr env) f Hf) as Hlit.
  set (lit := Json.floatstr (float_shortest_repr env) f) in *. clearbody lit.
  set (rest := ", " +:+ _).
  repeat (progress (rewrite ?append_assoc; cbn [append])).
  apply (NonFiniteFacts.loads_bad_score lit rest Hlit).
Qed.

Lemma X11_non_finite_score_witness :
  Process.serving (More.server_with (VFloat nan) (VStr (py "left"))) = Some 0%nat
  /\ exists calls resp,
       Http.handle sample_env (More.server_with (VFloat nan) (VStr (py "left")))
         (sample_request "POST")
       = Some (Py.Return tt, calls, More.server_with (VFloat nan) (VStr (py "left")))
       /\ Http.response_of calls = Some resp
       /\ Http.status resp = 200
       /\ JsonRead.loads (Http.body resp) = None.
Proof.
  split; [reflexivity |].
  apply (X11_non_finite_score sample_env
           (More.server_with (VFloat nan) (VStr (py "left"))) 0%nat nan
           (VStr (py "left")) (sample_request "POST") eq_refl).
  - unfold Process.getattr, More.server_with. cbn [Process.heap].
    rewrite !lookup_insert_eq. reflexivity.
  - unfold Process.getattr, More.server_with. cbn [Process.heap].
    rewrite lookup_insert_eq, lookup_insert_ne by discriminate.
    rewrite lookup_insert_eq. reflexivity.
  - reflexivity.
  - left; reflexivity.
Defined.

(** X12. What goes on the connection for a POST to a running
    instance: the status line [HTTP/1.0 200 OK], the library's [Server]
    and [Date] headers, [Content-type: application/json], an empty line
    and the body; for a request line that names [HTTP/0.9], the body
    alone.  No [Content-Length] is sent either way. *)
Theorem X12_wire_bytes (env : Env) (label : pystr) (port : Z)
    (r : Http.request) (date : string) :
  Http.command r = "POST"%string ->
  exists calls : list Http.call,
    Http.handle env (Process.started env label port) r
    = Some (Py.Return tt, calls, Process.started env label port)
    /\ Http.transmit env (Http.request_version r) date EmptyString calls
       = (if String.eqb (Http.request_version r) "HTTP/0.9" then EmptyString
          else "HTTP/1.0 200 OK" +:+ Http.crlf
               +:+ "Server: " +:+ version_string env +:+ Http.crlf
               +:+ "Date: " +:+ date +:+ Http.crlf
               +:+ "Content-type: application/json" +:+ Http.crlf
               +:+ Http.crlf)
         +:+ Json.dumps (float_shortest_repr env)
               [(py "score", VFloat (Score.score_of_label label));
                (py "label", VStr label)].
Proof.
  intros Hcmd.
  exists (Http.post_calls env (VFloat (Score.score_of_label label)) (VStr label)).
  split; [apply HttpFacts.started_POST; exact Hcmd |].
  destruct (String.eqb (Http.request_version r) "HTTP/0.9") eqn:Hv.
  - apply String.eqb_eq in Hv. rewrite Hv.
    apply WireFacts.wire_of_post_simple.
  - rewrite (WireFacts.wire_of_post env _ date _ _ Hv).
    unfold Http.crlf.
    repeat (progress (rewrite ?append_assoc; cbn [append])). reflexivity.
Qed.

Lemma X12_wire_bytes_witness :
  exists calls,
    Http.handle sample_env (Process.started sample_env (py "left") 8080) (sample_request "POST")
    = Some (Py.Return tt, calls, Process.started sample_env (py "left") 8080)
    /\ Http.transmit sample_env "HTTP/1.1" "Thu, 01 Jan 1970 00:00:00 GMT"
         EmptyString calls
       = ("HTTP/1.0 200 OK" +:+ Http.crlf
          +:+ "Server: BaseHTTP/0.6 Python/3.11.2" +:+ Http.crlf
          +:+ "Date: Thu, 01 Jan 1970 00:00:00 GMT" +:+ Http.crlf
          +:+ "Content-type: application/json" +:+ Http.crlf
          +:+ Http.crlf
          +:+ "{" +:+ String dquote "score" +:+ String dquote ": -1.0, "
          +:+ String dquote "label" +:+ String dquote ": "
          +:+ String dquote "left" +:+ String dquote "}")%string.
Proof.
  destruct (X12_wire_bytes sample_env (py "left") 8080 (sample_request "POST")
              "Thu, 01 Jan 1970 00:00:00 GMT" eq_refl) as (calls & Hh & Hw).
  exists calls. split; [exact Hh |].
  etransitivity; [exact Hw | vm_compute; reflexivity].
Defined.

(** X13. The body tells the label: two labels without a split pair
    whose POST bodies are the same bytes are the same label. *)
Theorem X13_body_determines_label (rep : float -> string) (l1 l2 : pystr) :
  Text.code_points l1 -> Text.no_split_pair l1 = true ->
  Text.code_points l2 -> Text.no_split_pair l2 = true ->
  Json.dumps rep [(py "score", VFloat (Score.score_of_label l1)); (py "label", VStr l1)]
  = Json.dumps rep [(py "score", VFloat (Score.score_of_label l2)); (py "label", VStr l2)] ->
  l1 = l2.
Proof.
  intros Hcp1 Hns1 Hcp2 Hns2 Hsame.
  pose proof (PayloadFacts.loads_payload rep l1 Hcp1 Hns1) as E1.
  pose proof (PayloadFacts.loads_payload rep l2 Hcp2 Hns2) as E2.
  rewrite Hsame, E2 in E1. congruence.
Qed.

Lemma X13_body_determines_label_witness :
  Text.code_points (py "left") /\ Text.no_split_pair (py "left") = true
  /\ py "left" = py "left".
Proof.
  assert (Text.code_points (py "left")) as Hcp by (repeat constructor).
  split; [exact Hcp |]. split; [reflexivity |].
  apply (X13_body_determines_label (fun _ => EmptyString) (py "left") (py "left")
           Hcp eq_refl Hcp eq_refl eq_refl).
Defined.

(** X14. The body of the response to a POST is JSON for every label:
    an object with the members [score] and [label], in this order, whose
    label reads back as the label given at startup with every split
    surrogate pair joined into the code point it stands for; so as the
    label itself where no pair is split. *)
Theorem X14_body_is_json (env : Env) (label : pystr) (port : Z)
    (r : Http.request) :
  Http.command r = "POST"%string ->
  Text.code_points label ->
  exists (calls : list Http.call) (resp : Http.response),
    Http.handle env (Process.started env label port) r
    = Some (Py.Return tt, calls, Process.started env label port)
    /\ Http.response_of calls = Some resp
    /\ JsonRead.loads (Http.body resp)
       = Some (JsonRead.JObject
                 [(py "score",
                   JsonRead.JNumber
                     (Json.floatstr (float_shortest_repr env)
                        (Score.score_of_label label)));
                  (py "label", JsonRead.JString (More.join_pairs label))])
    /\ (Text.no_split_pair label = true -> More.join_pairs label = label).
Proof.
  intros Hcmd Hcp.
  exists (Http.post_calls env (VFloat (Score.score_of_label label)) (VStr label)).
  eexists.
  split; [apply HttpFacts.started_POST; exact Hcmd |].
  split; [apply HttpFacts.response_of_post_calls |].
  split; [| apply PairFacts.join_pairs_whole].
  cbn [Http.body]. apply PairFacts.loads_payload_any. exact Hcp.
Qed.

Lemma X14_body_is_json_witness :
  Text.code_points [0xd83d; 0xd83d; 0xde00; 97]%N
  /\ exists calls resp,
       Http.handle sample_env (Process.started sample_env [0xd83d; 0xd83d; 0xde00; 97]%N 8080)
         (sample_request "POST")
       = Some (Py.Return tt, calls,
               Process.started sample_env [0xd83d; 0xd83d; 0xde00; 97]%N 8080)
       /\ Http.response_of calls = Some resp
       /\ JsonRead.loads (Http.body resp)
          = Some (JsonRead.JObject
                    [(py "score", JsonRead.JNumber "0.0");
                     (py "label", JsonRead.JString [0xd83d; 0x1f600; 97]%N)]).
Proof.
  assert (Text.code_points [0xd83d; 0xd83d; 0xde00; 97]%N) as Hcp
    by (repeat constructor).
  split; [exact Hcp |].
  destruct (X14_body_is_json sample_env [0xd83d; 0xd83d; 0xde00; 97]%N 8080
              (sample_request "POST") eq_refl Hcp)
    as (calls & resp & Hh & Hr & Hl & _).
  exists calls, resp. split; [exact Hh |]. split; [exact Hr | exact Hl].
Defined.

(** X15. The score tells the side: it is -1.0 for the label [left]
    only, 1.0 for the label [right] only, and 0.0 for every other
    label. *)
Theorem X15_score_tells_side (label : pystr) :
  (Score.score_of_label label = (-1.0)%float <-> label = py "left")
  /\ (Score.score_of_label label = 1.0%float <-> label = py "right")
  /\ (Score.score_of_label label = 0.0%float
      <-> label <> py "left" /\ label <> py "right").
Proof.
  assert (forall a b : float, Prim2SF a <> Prim2SF b -> a <> b) as Hne
    by (intros a b H E; apply H; rewrite E; reflexivity).
  assert ((-1.0)%float <> 0.0%float) as H1 by (apply Hne; vm_compute; discriminate).
  assert ((-1.0)%float <> 1.0%float) as H2 by (apply Hne; vm_compute; discriminate).
  assert (1.0%float <> 0.0%float) as H3 by (apply Hne; vm_compute; discriminate).
  unfold Score.score_of_label.
  repeat case_decide; subst;
    repeat split; intros; try reflexivity; try discriminate;
    try congruence; try tauto.
Qed.

(** X16. A port argument that is empty, or made of blanks only, ends
    the program with [ValueError] uncaught. *)
Theorem X16_blank_port (env : Env) (prog label port_text : pystr) :
  Forall (fun c => Int.is_space (Int.to_ascii env c) = true) port_text ->
  Process.python env [prog; label; port_text]
  = (Process.Exited 1 (Some Py.ValueError), Process.initial).
Proof.
  intros Hblank. rewrite ProcessFacts.python_three.
  assert (Int.skip_spaces (map (Int.to_ascii env) port_text) = []) as E.
  { induction Hblank as [|c l Hc Hl IH]; [reflexivity |].
    cbn [map Int.skip_spaces]. rewrite Hc. exact IH. }
  unfold Int.int_of_str. rewrite E. reflexivity.
Qed.

Lemma X16_blank_port_witness :
  Forall (fun c => Int.is_space (Int.to_ascii sample_env c) = true) []
  /\ Process.python sample_env [py "mock_llm_service.py"; py "left"; []]
     = (Process.Exited 1 (Some Py.ValueError), Process.initial).
Proof.
  split; [constructor |].
  apply (X16_blank_port sample_env (py "mock_llm_service.py") (py "left") []).
  constructor.
Defined.

(** X17. The port argument counts by its value only: any text that
    [int] accepts starts the program as the plain decimal text of the
    same number does, and the line printed shows that plain text, not
    the argument. *)
Theorem X17_port_by_value (env : Env) (prog label port_text : pystr) (port : Z) :
  Int.int_of_str env port_text = Some port ->
  More.within_digit_limit env port ->
  Process.python env [prog; label; port_text]
  = Process.python env [prog; label; str_of_int port].
Proof.
  intros Hint Hlimit.
  rewrite !ProcessFacts.python_three, Hint.
  rewrite (DigitFacts.int_of_str_of_int env port Hlimit). reflexivity.
Qed.

Lemma X17_port_by_value_witness :
  Int.int_of_str sample_env (py " +08_080 ") = Some 8080
  /\ More.within_digit_limit sample_env 8080
  /\ Process.python sample_env [py "mock_llm_service.py"; py "left"; py " +08_080 "]
     = Process.python sample_env [py "mock_llm_service.py"; py "left"; py "8080"].
Proof.
  assert (Int.int_of_str sample_env (py " +08_080 ") = Some 8080) as Hint
    by (vm_compute; reflexivity).
  assert (More.within_digit_limit sample_env 8080) as Hlimit
    by (right; vm_compute; discriminate).
  split; [exact Hint |]. split; [exact Hlimit |].
  apply (X17_port_by_value sample_env (py "mock_llm_service.py") (py "left")
           (py " +08_080 ") 8080 Hint Hlimit).
Defined.

(** X18. A label that the standard output cannot encode stops the
    program at line 29, after the bind and both assignments: it ends
    with [UnicodeEncodeError] uncaught (a traceback, status 1), nothing
    printed and nothing served, though the socket was bound and the
    server object holds the label and its score. *)
Theorem X18_label_not_printable (env : Env) (prog label port_text : pystr)
    (port : Z) :
  Int.int_of_str env port_text = Some port ->
  0 <= port <= 65535 ->
  os_bind env port = None ->
  Process.stdout_takes env label = false ->
  exists p : Process.process,
    Process.python env [prog; label; port_text]
    = (Process.Exited 1 (Some Py.UnicodeEncodeError), p)
    /\ Process.stdout p = []
    /\ Process.serving p = None
    /\ Process.listening p = [if port =? 0 then ephemeral_port env else port]
    /\ Process.assigned p = [(0%nat, "label"%string); (0%nat, "score"%string)]
    /\ (forall r, Http.handle env p r = None).
Proof.
  intros Hint Hr Hos Hout.
  exists (Process.bound env label port).
  split; [| repeat split].
  rewrite ProcessFacts.python_three, Hint.
  rewrite (proj2 (RunFacts.bind_failure_none env port) (conj Hr Hos)).
  rewrite RunFacts.banner_takes, Hout. reflexivity.
Qed.

Lemma X18_label_not_printable_witness :
  Int.int_of_str sample_env (py "8080") = Some 8080
  /\ Process.stdout_takes sample_env (Argv.fsdecode (Argv.arg [99; 97; 102; 233]%N))
     = false
  /\ exists p,
       Process.python sample_env
         (map Argv.fsdecode
            ["mock_llm_service.py"%string; Argv.arg [99; 97; 102; 233]%N;
             "8080"%string])
       = (Process.Exited 1 (Some Py.UnicodeEncodeError), p)
       /\ Process.stdout p = []
       /\ Process.listening p = [8080].
Proof.
  assert (Int.int_of_str sample_env (py "8080") = Some 8080) as Hint
    by (vm_compute; reflexivity).
  split; [exact Hint |]. split; [reflexivity |].
  destruct (X18_label_not_printable sample_env (py "mock_llm_service.py")
              (Argv.fsdecode (Argv.arg [99; 97; 102; 233]%N)) (py "8080") 8080
              Hint ltac:(lia) eq_refl eq_refl)
    as (p & Hrun & Hout & _ & Hlisten & _).
  exists p. split; [exact Hrun |]. split; [exact Hout | exact Hlisten].
Defined.
